(** * Idea-Box API: a model of [main.go] and its CRUD contract

    The program is a set of ten HTTP handlers over two tables, [boxes] and
    [ideas], reached through GORM on SQLite.  The handlers are embedded
    here as functions from the request (path parameters, body) and the
    state of the storage engine to the response written with [c.JSON] and
    the new state.

    The storage calls (GORM finishers [Find], [First], [Create],
    [Updates], [Delete]) are library code; each is given one definition
    below that states what the call does to the tables, following GORM's
    documented behaviour.  Every such call may report an error: the
    outcome of the upcoming calls is part of the state ([script]), so
    that the paths [if result.Error != nil] of the handlers are real
    paths of the model. *)

From stdpp Require Import gmap strings list fin_maps.

Open Scope Z_scope.

(** ** Go values *)

(** A Go slice is either [nil] (encoded as JSON [null]) or a sequence of
    elements (encoded as a JSON array, [[]] when empty). *)
Definition slice (A : Type) : Type := option (list A).

(** [make([]T, 0)] and the literal [[]T{}]. *)
Definition make {A : Type} : slice A := Some [].

(** The elements a [for _, x := range s] loop visits. *)
Definition elems {A : Type} (s : slice A) : list A :=
  match s with
  | Some l => l
  | None => []
  end.

(** [append(s, x)]. *)
Definition append {A : Type} (s : slice A) (x : A) : slice A :=
  Some (elems s ++ [x]).

(** The conversion [int(u)] of a [uint] to an [int], both 64 bits wide. *)
Definition int (u : Z) : Z :=
  if u <? 2 ^ 63 then u else u - 2 ^ 64.

(** ** The structs of [main.go] *)

(** [type Idea struct].  The back-reference [Box Box] is left out: no
    handler reads or writes it and no query preloads it, so it holds the
    zero value throughout. *)
Module Idea.
Record t : Type := mk
  { ID : Z; Title : string; Description : string; BoxID : Z }.
End Idea.

(** [type Box struct]. *)
Module Box.
Record t : Type := mk
  { ID : Z; Title : string; Description : string; Ideas : slice Idea.t }.
End Box.

(** [type BoxRequest struct]. *)
Module BoxRequest.
Record t : Type := mk { Title : string; Description : string }.
End BoxRequest.

(** [type IdeaRequest struct]. *)
Module IdeaRequest.
Record t : Type := mk { Title : string; Description : string }.
End IdeaRequest.

(** [type IdeaResponse struct]: id, title and description, nothing else. *)
Module IdeaResponse.
Record t : Type := mk { ID : Z; Title : string; Description : string }.
End IdeaResponse.

(** [type BoxResponse struct]. *)
Module BoxResponse.
Record t : Type := mk
  { ID : Z; Title : string; Description : string;
    Ideas : slice IdeaResponse.t }.
End BoxResponse.

Global Instance IdeaResponse_eq_dec : EqDecision IdeaResponse.t.
Proof. solve_decision. Defined.

Global Instance BoxResponse_eq_dec : EqDecision BoxResponse.t.
Proof. solve_decision. Defined.

(** ** Requests *)

(** A path parameter ([c.Param]) is a text that the handlers pass to the
    storage engine, which compares it with an integer column.  What
    matters of the text is the integer it denotes there, if any. *)
Definition Param : Type := option Z.

(** A request body as [ShouldBindJSON] sees it: either it does not decode
    into the request struct (not JSON, or a field of the wrong type), or
    it is an object whose keys [title] and [description] are each absent
    or a string. *)
Inductive Body : Type :=
  | Undecodable
  | Object (title description : option string).

(** ** Errors and responses *)

Inductive error : Type :=
  | ErrBinding              (* decoding or [binding:"required"] failed *)
  | ErrRecordNotFound       (* gorm.ErrRecordNotFound *)
  | ErrMissingWhereClause   (* gorm.ErrMissingWhereClause *)
  | ErrStorage.             (* an error reported by the storage engine *)

(** The text of an error body: a literal of [main.go] or [err.Error()]. *)
Inductive ErrorText : Type :=
  | Literal (s : string)
  | ErrorOf (e : error).

(** What a handler hands to [c.JSON]. *)
Inductive Payload : Type :=
  | H_error (msg : ErrorText)              (* gin.H{"error": msg} *)
  | H_empty                                (* gin.H{} *)
  | JBoxes (l : slice BoxResponse.t)
  | JBox (b : BoxResponse.t)
  | JIdeas (l : slice IdeaResponse.t)
  | JIdea (i : IdeaResponse.t).

Record Response : Type := JSON { status : Z; payload : Payload }.

Definition StatusOK : Z := 200.
Definition StatusCreated : Z := 201.
Definition StatusNoContent : Z := 204.
Definition StatusBadRequest : Z := 400.
Definition StatusNotFound : Z := 404.

(** ** The storage engine *)

(** A row of table [boxes] and a row of table [ideas], without the
    primary key: a table maps the primary key [id] to the other columns,
    which makes the key unique by construction. *)
Record boxes_row : Type :=
  BoxesRow { boxes_title : string; boxes_description : string }.

Record ideas_row : Type :=
  IdeasRow { ideas_title : string; ideas_description : string;
             ideas_box_id : Z }.

Global Instance boxes_row_eq_dec : EqDecision boxes_row.
Proof. solve_decision. Defined.

Global Instance ideas_row_eq_dec : EqDecision ideas_row.
Proof. solve_decision. Defined.

(** The two tables and, for each, the largest key handed out so far
    (SQLite's [sqlite_sequence]; the key columns are
    [integer PRIMARY KEY AUTOINCREMENT]). *)
Record Tables : Type := mkTables
  { boxes : gmap Z boxes_row;
    ideas : gmap Z ideas_row;
    boxes_seq : Z;
    ideas_seq : Z }.

(** The state behind the global [db]: the tables, and for each upcoming
    storage call whether the engine reports an error for it ([true]).
    Past the end of the script no call fails. *)
Record DB : Type := mkDB { tables : Tables; script : list bool }.

(** The largest key SQLite hands out. *)
Definition maxRowid : Z := 2 ^ 63 - 1.

(** The state in which every storage call succeeds. *)
Definition healthy (db : DB) : Prop := script db = [].

Global Instance healthy_dec db : Decision (healthy db).
Proof. unfold healthy. apply _. Defined.

(** One storage call is issued: its scripted outcome is consumed. *)
Definition issue (db : DB) : bool * DB :=
  match script db with
  | [] => (false, db)
  | f :: fs => (f, mkDB (tables db) fs)
  end.

Definition with_boxes (T : Tables) (m : gmap Z boxes_row) : Tables :=
  mkTables m (ideas T) (boxes_seq T) (ideas_seq T).

Definition with_ideas (T : Tables) (m : gmap Z ideas_row) : Tables :=
  mkTables (boxes T) m (boxes_seq T) (ideas_seq T).

(** [SELECT * FROM ideas WHERE box_id = k], scanned into [Idea] values.
    SQL promises no order; the rows come in the order of the table's
    enumeration. *)
Definition scan_idea (p : Z * ideas_row) : Idea.t :=
  Idea.mk p.1 (ideas_title p.2) (ideas_description p.2) (ideas_box_id p.2).

Definition ideas_where_box_id (T : Tables) (k : Z) : list Idea.t :=
  scan_idea <$> filter (λ p, ideas_box_id p.2 = k) (map_to_list (ideas T)).

(** A box row scanned into a [Box]; [Ideas] is what the query loaded. *)
Definition scan_box (k : Z) (r : boxes_row) (loaded : slice Idea.t) : Box.t :=
  Box.mk k (boxes_title r) (boxes_description r) loaded.

(** The result of a storage call: [result.Error] and the value the call
    left in the Go variable it was given. *)
Definition Result (A : Type) : Type := (option error * A) * DB.

(** *** Queries *)

(** The rows of [boxes] with [id = ?] and of [ideas] with
    [id = ? AND box_id = ?], for parameters given as texts. *)
Definition boxes_where_id (T : Tables) (id : Param) : option boxes_row :=
  k ← id; boxes T !! k.

Definition ideas_where_id_box_id (T : Tables) (ideaID boxID : Param)
  : option ideas_row :=
  i ← ideaID; b ← boxID; r ← ideas T !! i;
  if decide (ideas_box_id r = b) then Some r else None.

(** [db.First(&box, "id = ?", id)]: the first row of [boxes] with that
    key, or [ErrRecordNotFound]; [Ideas] stays [nil]. *)
Definition First_Box (id : Param) (box : Box.t) (db : DB) : Result Box.t :=
  let '(failed, db) := issue db in
  if failed then ((Some ErrStorage, box), db)
  else match id, boxes_where_id (tables db) id with
       | Some k, Some r => ((None, scan_box k r None), db)
       | _, _ => ((Some ErrRecordNotFound, box), db)
       end.

(** [db.Preload("Ideas").First(&box, "id = ?", id)]: as [First], and the
    rows of [ideas] whose [box_id] is the key of the box found are
    loaded into [Ideas], an empty slice when there are none. *)
Definition Preload_Ideas_First (id : Param) (box : Box.t) (db : DB)
  : Result Box.t :=
  let '(failed, db) := issue db in
  if failed then ((Some ErrStorage, box), db)
  else match id, boxes_where_id (tables db) id with
       | Some k, Some r =>
           ((None, scan_box k r (Some (ideas_where_box_id (tables db) k))), db)
       | _, _ => ((Some ErrRecordNotFound, box), db)
       end.

(** [db.Preload("Ideas").Find(&boxes)]: every row of [boxes], each with
    its rows of [ideas]. *)
Definition Preload_Ideas_Find (boxes0 : slice Box.t) (db : DB)
  : Result (slice Box.t) :=
  let '(failed, db) := issue db in
  if failed then ((Some ErrStorage, boxes0), db)
  else
    let load (p : Z * boxes_row) :=
      scan_box p.1 p.2 (Some (ideas_where_box_id (tables db) p.1)) in
    ((None, Some (load <$> map_to_list (boxes (tables db)))), db).

(** [db.Where("box_id = ?", boxID).Find(&ideas)]. *)
Definition Where_box_id_Find (boxID : Param) (ideas0 : slice Idea.t) (db : DB)
  : Result (slice Idea.t) :=
  let '(failed, db) := issue db in
  if failed then ((Some ErrStorage, ideas0), db)
  else
    let rows := match boxID with
                | Some b => ideas_where_box_id (tables db) b
                | None => []
                end in
    ((None, Some rows), db).

(** [db.Where("id = ? AND box_id = ?", ideaID, boxID).First(&idea)]. *)
Definition Where_id_box_id_First (ideaID boxID : Param) (idea : Idea.t)
  (db : DB) : Result Idea.t :=
  let '(failed, db) := issue db in
  if failed then ((Some ErrStorage, idea), db)
  else match ideaID, ideas_where_id_box_id (tables db) ideaID boxID with
       | Some i, Some r => ((None, scan_idea (i, r)), db)
       | _, _ => ((Some ErrRecordNotFound, idea), db)
       end.

(** *** Inserts *)

(** [db.Create(&box)] for a value whose [ID] is zero, as the handlers
    build it: the engine assigns the key that follows the largest one
    ever used, or reports that the keys are used up; the key is written
    back into the value. *)
Definition Create_Box (box : Box.t) (db : DB) : Result Box.t :=
  let '(failed, db) := issue db in
  let T := tables db in
  if failed then ((Some ErrStorage, box), db)
  else if boxes_seq T <? maxRowid then
    let k := boxes_seq T + 1 in
    let r := BoxesRow (Box.Title box) (Box.Description box) in
    ((None, Box.mk k (Box.Title box) (Box.Description box) (Box.Ideas box)),
     mkDB (mkTables (<[k := r]> (boxes T)) (ideas T) k (ideas_seq T))
          (script db))
  else ((Some ErrStorage, box), db).

(** [db.Create(&idea)], likewise. *)
Definition Create_Idea (idea : Idea.t) (db : DB) : Result Idea.t :=
  let '(failed, db) := issue db in
  let T := tables db in
  if failed then ((Some ErrStorage, idea), db)
  else if ideas_seq T <? maxRowid then
    let k := ideas_seq T + 1 in
    let r := IdeasRow (Idea.Title idea) (Idea.Description idea)
                      (Idea.BoxID idea) in
    ((None, Idea.mk k (Idea.Title idea) (Idea.Description idea)
                    (Idea.BoxID idea)),
     mkDB (mkTables (boxes T) (<[k := r]> (ideas T)) (boxes_seq T) k)
          (script db))
  else ((Some ErrStorage, idea), db).

(** *** Updates *)

(** GORM's [Updates] with a struct assigns the fields of the struct that
    are not the zero value, and only those: a field holding the empty
    string keeps the column, and the field of the model, as they are. *)
Definition assign (new old : string) : string :=
  if decide (new = EmptyString) then old else new.

(** [db.Model(&box).Updates(BoxRequest{...})]: nothing to do when every
    field is zero; [ErrMissingWhereClause] when the model has no primary
    key to select the row by; else the row whose key is [box.ID] gets
    the non-zero fields, and so does [box]. *)
Definition Model_Updates_Box (box : Box.t) (values : BoxRequest.t) (db : DB)
  : Result Box.t :=
  let title := BoxRequest.Title values in
  let description := BoxRequest.Description values in
  if decide (title = EmptyString ∧ description = EmptyString)
  then ((None, box), db)
  else if decide (Box.ID box = 0) then ((Some ErrMissingWhereClause, box), db)
  else
    let '(failed, db) := issue db in
    let T := tables db in
    if failed then ((Some ErrStorage, box), db)
    else
      let set r := BoxesRow (assign title (boxes_title r))
                            (assign description (boxes_description r)) in
      ((None, Box.mk (Box.ID box) (assign title (Box.Title box))
                     (assign description (Box.Description box))
                     (Box.Ideas box)),
       mkDB (with_boxes T (alter set (Box.ID box) (boxes T))) (script db)).

(** [db.Model(&idea).Updates(IdeaRequest{...})]. *)
Definition Model_Updates_Idea (idea : Idea.t) (values : IdeaRequest.t)
  (db : DB) : Result Idea.t :=
  let title := IdeaRequest.Title values in
  let description := IdeaRequest.Description values in
  if decide (title = EmptyString ∧ description = EmptyString)
  then ((None, idea), db)
  else if decide (Idea.ID idea = 0)
  then ((Some ErrMissingWhereClause, idea), db)
  else
    let '(failed, db) := issue db in
    let T := tables db in
    if failed then ((Some ErrStorage, idea), db)
    else
      let set r := IdeasRow (assign title (ideas_title r))
                            (assign description (ideas_description r))
                            (ideas_box_id r) in
      ((None, Idea.mk (Idea.ID idea) (assign title (Idea.Title idea))
                      (assign description (Idea.Description idea))
                      (Idea.BoxID idea)),
       mkDB (with_ideas T (alter set (Idea.ID idea) (ideas T))) (script db)).

(** *** Deletes *)

(** [db.Where("box_id = ?", id).Delete(&Idea{})]: every row of [ideas]
    with that [box_id] goes.  A call that fails removes nothing. *)
Definition Where_box_id_Delete (id : Param) (db : DB) : option error * DB :=
  let '(failed, db) := issue db in
  let T := tables db in
  if failed then (Some ErrStorage, db)
  else match id with
       | Some k =>
           (None,
            mkDB (with_ideas T (filter (λ p, ideas_box_id p.2 ≠ k) (ideas T)))
                 (script db))
       | None => (None, db)
       end.

(** [db.Delete(&box)]: the row whose key is [box.ID] goes;
    [ErrMissingWhereClause] when [box.ID] is zero. *)
Definition Delete_Box (box : Box.t) (db : DB) : option error * DB :=
  if decide (Box.ID box = 0) then (Some ErrMissingWhereClause, db)
  else
    let '(failed, db) := issue db in
    let T := tables db in
    if failed then (Some ErrStorage, db)
    else (None, mkDB (with_boxes T (delete (Box.ID box) (boxes T))) (script db)).

(** [db.Delete(&idea)]. *)
Definition Delete_Idea (idea : Idea.t) (db : DB) : option error * DB :=
  if decide (Idea.ID idea = 0) then (Some ErrMissingWhereClause, db)
  else
    let '(failed, db) := issue db in
    let T := tables db in
    if failed then (Some ErrStorage, db)
    else (None,
          mkDB (with_ideas T (delete (Idea.ID idea) (ideas T))) (script db)).

(** ** Binding the request body *)

(** A key that is absent leaves the field of the request struct at its
    zero value. *)
Definition field (o : option string) : string := default EmptyString o.

(** [c.ShouldBindJSON(&request)] for a [BoxRequest]: the body is decoded,
    then [binding:"required"] rejects a [Title] that is the zero value. *)
Definition ShouldBindJSON_Box (b : Body) : error + BoxRequest.t :=
  match b with
  | Undecodable => inl ErrBinding
  | Object title description =>
      let request := BoxRequest.mk (field title) (field description) in
      if decide (BoxRequest.Title request = EmptyString)
      then inl ErrBinding else inr request
  end.

(** [c.ShouldBindJSON(&request)] for an [IdeaRequest]. *)
Definition ShouldBindJSON_Idea (b : Body) : error + IdeaRequest.t :=
  match b with
  | Undecodable => inl ErrBinding
  | Object title description =>
      let request := IdeaRequest.mk (field title) (field description) in
      if decide (IdeaRequest.Title request = EmptyString)
      then inl ErrBinding else inr request
  end.

(** ** The handlers *)

(** The loop that the handlers run over a slice of [Idea]:
    [ideaResponses := make([]IdeaResponse, 0)], then one [append] per
    element. *)
Definition ideaResponse (idea : Idea.t) : IdeaResponse.t :=
  IdeaResponse.mk (Idea.ID idea) (Idea.Title idea) (Idea.Description idea).

Definition ideaResponses (l : slice Idea.t) : slice IdeaResponse.t :=
  foldl (λ responses idea, append responses (ideaResponse idea))
        make (elems l).

Definition zeroBox : Box.t := Box.mk 0 EmptyString EmptyString None.
Definition zeroIdea : Idea.t := Idea.mk 0 EmptyString EmptyString 0.

Definition box_not_found : Response :=
  JSON StatusNotFound (H_error (Literal "box not found")).

Definition idea_not_found : Response :=
  JSON StatusNotFound (H_error (Literal "idea not found")).

Definition bad_request (e : error) : Response :=
  JSON StatusBadRequest (H_error (ErrorOf e)).

(** [GET /boxes] *)
Definition getBoxes (db : DB) : Response * DB :=
  let '((err, boxes), db) := Preload_Ideas_Find None db in
  match err with
  | Some e => (bad_request e, db)
  | None =>
      let responses :=
        foldl (λ responses box,
                 append responses
                   (BoxResponse.mk (Box.ID box) (Box.Title box)
                      (Box.Description box) (ideaResponses (Box.Ideas box))))
              make (elems boxes) in
      (JSON StatusOK (JBoxes responses), db)
  end.

(** [GET /boxes/:id] *)
Definition getBox (id : Param) (db : DB) : Response * DB :=
  let '((err, box), db) := Preload_Ideas_First id zeroBox db in
  match err with
  | Some _ => (box_not_found, db)
  | None =>
      let response :=
        BoxResponse.mk (Box.ID box) (Box.Title box) (Box.Description box)
                       (ideaResponses (Box.Ideas box)) in
      (JSON StatusOK (JBox response), db)
  end.

(** [POST /boxes] *)
Definition createBox (body : Body) (db : DB) : Response * DB :=
  match ShouldBindJSON_Box body with
  | inl e => (bad_request e, db)
  | inr request =>
      let box := Box.mk 0 (BoxRequest.Title request)
                        (BoxRequest.Description request) None in
      let '((err, box), db) := Create_Box box db in
      match err with
      | Some e => (bad_request e, db)
      | None =>
          let response :=
            BoxResponse.mk (Box.ID box) (Box.Title box) (Box.Description box)
                           make in
          (JSON StatusCreated (JBox response), db)
      end
  end.

(** [PUT /boxes/:id] *)
Definition updateBox (id : Param) (body : Body) (db : DB) : Response * DB :=
  match ShouldBindJSON_Box body with
  | inl e => (bad_request e, db)
  | inr request =>
      let '((err, box), db) := First_Box id zeroBox db in
      match err with
      | Some _ => (box_not_found, db)
      | None =>
          let values := BoxRequest.mk (BoxRequest.Title request)
                                      (BoxRequest.Description request) in
          let '((err, box), db) := Model_Updates_Box box values db in
          match err with
          | Some e => (bad_request e, db)
          | None =>
              let response :=
                BoxResponse.mk (Box.ID box) (Box.Title box)
                               (Box.Description box) make in
              (JSON StatusOK (JBox response), db)
          end
      end
  end.

(** [DELETE /boxes/:id] *)
Definition deleteBox (id : Param) (db : DB) : Response * DB :=
  let '((err, box), db) := First_Box id zeroBox db in
  match err with
  | Some _ => (box_not_found, db)
  | None =>
      let '(_, db) := Where_box_id_Delete id db in
      let '(err, db) := Delete_Box box db in
      match err with
      | Some e => (bad_request e, db)
      | None => (JSON StatusNoContent H_empty, db)
      end
  end.

(** [GET /boxes/:id/ideas] *)
Definition getBoxIdeas (boxID : Param) (db : DB) : Response * DB :=
  let '((err, box), db) := First_Box boxID zeroBox db in
  match err with
  | Some _ => (box_not_found, db)
  | None =>
      let '((err, ideas), db) := Where_box_id_Find boxID None db in
      match err with
      | Some e => (bad_request e, db)
      | None => (JSON StatusOK (JIdeas (ideaResponses ideas)), db)
      end
  end.

(** [GET /boxes/:id/ideas/:ideaId] *)
Definition getBoxIdea (boxID ideaID : Param) (db : DB) : Response * DB :=
  let '((err, box), db) := First_Box boxID zeroBox db in
  match err with
  | Some _ => (box_not_found, db)
  | None =>
      let '((err, idea), db) := Where_id_box_id_First ideaID boxID zeroIdea db in
      match err with
      | Some _ => (idea_not_found, db)
      | None => (JSON StatusOK (JIdea (ideaResponse idea)), db)
      end
  end.

(** [POST /boxes/:id/ideas] *)
Definition createBoxIdea (boxID : Param) (body : Body) (db : DB)
  : Response * DB :=
  match ShouldBindJSON_Idea body with
  | inl e => (bad_request e, db)
  | inr request =>
      let '((err, box), db) := First_Box boxID zeroBox db in
      match err with
      | Some _ => (box_not_found, db)
      | None =>
          let idea := Idea.mk 0 (IdeaRequest.Title request)
                              (IdeaRequest.Description request)
                              (int (Box.ID box)) in
          let '((err, idea), db) := Create_Idea idea db in
          match err with
          | Some e => (bad_request e, db)
          | None => (JSON StatusCreated (JIdea (ideaResponse idea)), db)
          end
      end
  end.

(** [PUT /boxes/:id/ideas/:ideaId] *)
Definition updateBoxIdea (boxID ideaID : Param) (body : Body) (db : DB)
  : Response * DB :=
  match ShouldBindJSON_Idea body with
  | inl e => (bad_request e, db)
  | inr request =>
      let '((err, box), db) := First_Box boxID zeroBox db in
      match err with
      | Some _ => (box_not_found, db)
      | None =>
          let '((err, idea), db) :=
            Where_id_box_id_First ideaID boxID zeroIdea db in
          match err with
          | Some _ => (idea_not_found, db)
          | None =>
              let values := IdeaRequest.mk (IdeaRequest.Title request)
                                           (IdeaRequest.Description request) in
              let '((err, idea), db) := Model_Updates_Idea idea values db in
              match err with
              | Some e => (bad_request e, db)
              | None => (JSON StatusOK (JIdea (ideaResponse idea)), db)
              end
          end
      end
  end.

(** [DELETE /boxes/:id/ideas/:ideaId] *)
Definition deleteBoxIdea (boxID ideaID : Param) (db : DB) : Response * DB :=
  let '((err, box), db) := First_Box boxID zeroBox db in
  match err with
  | Some _ => (box_not_found, db)
  | None =>
      let '((err, idea), db) :=
        Where_id_box_id_First ideaID boxID zeroIdea db in
      match err with
      | Some _ => (idea_not_found, db)
      | None =>
          let '(err, db) := Delete_Idea idea db in
          match err with
          | Some e => (bad_request e, db)
          | None => (JSON StatusNoContent H_empty, db)
          end
      end
  end.

(** ** Requests and runs *)

(** The route table of [main]. *)
Inductive Request : Type :=
  | GET_boxes
  | GET_box (id : Param)
  | POST_boxes (body : Body)
  | PUT_box (id : Param) (body : Body)
  | DELETE_box (id : Param)
  | GET_ideas (id : Param)
  | GET_idea (id ideaId : Param)
  | POST_ideas (id : Param) (body : Body)
  | PUT_idea (id ideaId : Param) (body : Body)
  | DELETE_idea (id ideaId : Param).

Definition handle (rq : Request) (db : DB) : Response * DB :=
  match rq with
  | GET_boxes => getBoxes db
  | GET_box id => getBox id db
  | POST_boxes body => createBox body db
  | PUT_box id body => updateBox id body db
  | DELETE_box id => deleteBox id db
  | GET_ideas id => getBoxIdeas id db
  | GET_idea id ideaId => getBoxIdea id ideaId db
  | POST_ideas id body => createBoxIdea id body db
  | PUT_idea id ideaId body => updateBoxIdea id ideaId body db
  | DELETE_idea id ideaId => deleteBoxIdea id ideaId db
  end.

(** The requests of a list served one after the other. *)
Fixpoint serve (rqs : list Request) (db : DB) : list Response * DB :=
  match rqs with
  | [] => ([], db)
  | rq :: rqs =>
      let '(r, db) := handle rq db in
      let '(rs, db) := serve rqs db in
      (r :: rs, db)
  end.

(** The tables after [AutoMigrate] on a new file. *)
Definition empty_tables : Tables := mkTables ∅ ∅ 0 0.

(** ** Well-formed tables *)

(** Keys are positive and none exceeds the largest key handed out, which
    SQLite keeps within [maxRowid]; the [box_id] of an idea is a key that
    was handed out for a box, still in the table or not. *)
Definition keys_ok {A : Type} (m : gmap Z A) (seq : Z) : Prop :=
  map_Forall (λ k _, 0 < k ≤ seq) m.

Definition wf (T : Tables) : Prop :=
  keys_ok (boxes T) (boxes_seq T) ∧ keys_ok (ideas T) (ideas_seq T) ∧
  map_Forall (λ _ r, 0 < ideas_box_id r ≤ boxes_seq T) (ideas T) ∧
  0 ≤ boxes_seq T ≤ maxRowid ∧ 0 ≤ ideas_seq T ≤ maxRowid.

Global Instance wf_dec T : Decision (wf T).
Proof. unfold wf, keys_ok. apply _. Defined.

(** Every row of [ideas] refers to a row of [boxes]. *)
Definition no_orphans (T : Tables) : Prop :=
  map_Forall (λ _ r, is_Some (boxes T !! ideas_box_id r)) (ideas T).

Global Instance no_orphans_dec T : Decision (no_orphans T).
Proof. unfold no_orphans. apply _. Defined.

(** The box is missing: no row of [boxes] has the key the parameter
    denotes. *)
Definition box_absent (T : Tables) (id : Param) : Prop :=
  boxes_where_id T id = None.

Global Instance box_absent_dec T id : Decision (box_absent T id).
Proof. unfold box_absent. apply _. Defined.

(** ** Notions used in the statements *)

(** The representation of a box in a response. *)
Definition boxResponse (box : Box.t) : BoxResponse.t :=
  BoxResponse.mk (Box.ID box) (Box.Title box) (Box.Description box)
                 (ideaResponses (Box.Ideas box)).

(** Deletes of the same box served in a row. *)
Definition deleteBox_times (n : nat) (id : Param) (db : DB)
  : list Response * DB :=
  serve (replicate n (DELETE_box id)) db.

(** A store for the examples: box 1 holds idea 1, box 2 holds none. *)
Definition two_boxes : DB :=
  mkDB (mkTables {[ 1 := BoxesRow "A" EmptyString;
                    2 := BoxesRow "B" EmptyString ]}
                 {[ 1 := IdeasRow "I1" EmptyString 1 ]} 2 1) [].

(** [l] lists the ideas of box [k]: each row of [ideas] whose [box_id] is
    [k] once, by id, title and description, in some order, and nothing
    else. *)
Definition lists_ideas_of (T : Tables) (k : Z) (l : list IdeaResponse.t)
  : Prop :=
  NoDup (IdeaResponse.ID <$> l) ∧
  ∀ x, x ∈ l ↔
       ∃ i r, ideas T !! i = Some r ∧ ideas_box_id r = k ∧
              x = IdeaResponse.mk i (ideas_title r) (ideas_description r).

(** What [Preload("Ideas").Find] loads for one row of [boxes]. *)
Definition load_box (T : Tables) (p : Z * boxes_row) : Box.t :=
  scan_box p.1 p.2 (Some (ideas_where_box_id T p.1)).

(** The rows of [m'] are rows of [m], up to title and description. *)
Definition ideas_within (m m' : gmap Z ideas_row) : Prop :=
  ∀ i r, m' !! i = Some r →
         ∃ r0, m !! i = Some r0 ∧ ideas_box_id r0 = ideas_box_id r.

(** From [db] to [db']: a healthy engine stays healthy, well-formed
    tables stay well formed, and on a healthy engine with well-formed
    tables no idea comes to refer to a box that is not in the store. *)
Definition keeps (db db' : DB) : Prop :=
  (healthy db → healthy db') ∧
  (wf (tables db) → wf (tables db')) ∧
  (healthy db → wf (tables db) → no_orphans (tables db) →
   no_orphans (tables db')).

(** The status codes a route can answer with, as the [c.JSON] calls of
    its handler give them. *)
Definition statuses (rq : Request) : list Z :=
  match rq with
  | GET_boxes => [StatusOK; StatusBadRequest]
  | GET_box _ => [StatusOK; StatusNotFound]
  | POST_boxes _ => [StatusCreated; StatusBadRequest]
  | PUT_box _ _ => [StatusOK; StatusBadRequest; StatusNotFound]
  | DELETE_box _ => [StatusNoContent; StatusBadRequest; StatusNotFound]
  | GET_ideas _ => [StatusOK; StatusBadRequest; StatusNotFound]
  | GET_idea _ _ => [StatusOK; StatusNotFound]
  | POST_ideas _ _ => [StatusCreated; StatusBadRequest; StatusNotFound]
  | PUT_idea _ _ _ => [StatusOK; StatusBadRequest; StatusNotFound]
  | DELETE_idea _ _ => [StatusNoContent; StatusBadRequest; StatusNotFound]
  end.

(** The routes registered with [router.GET]. *)
Definition is_read (rq : Request) : bool :=
  match rq with
  | GET_boxes | GET_box _ | GET_ideas _ | GET_idea _ _ => true
  | _ => false
  end.

(** The routes under [/boxes/:id], with the box they name. *)
Definition box_of (rq : Request) : option Param :=
  match rq with
  | GET_boxes | POST_boxes _ => None
  | GET_box id | PUT_box id _ | DELETE_box id | GET_ideas id
  | GET_idea id _ | POST_ideas id _ | PUT_idea id _ _
  | DELETE_idea id _ => Some id
  end.

(** The body of a request binds, when the route takes one. *)
Definition body_binds (rq : Request) : Prop :=
  match rq with
  | POST_boxes body | PUT_box _ body =>
      ∃ request, ShouldBindJSON_Box body = inr request
  | POST_ideas _ body | PUT_idea _ _ body =>
      ∃ request, ShouldBindJSON_Idea body = inr request
  | _ => True
  end.

(** Every stored title is a non-empty string. *)
Definition titled (T : Tables) : Prop :=
  map_Forall (λ _ r, boxes_title r ≠ EmptyString) (boxes T) ∧
  map_Forall (λ _ r, ideas_title r ≠ EmptyString) (ideas T).

Global Instance titled_dec T : Decision (titled T).
Proof. unfold titled. apply _. Defined.

(** * Properties *)

Local Arguments boxes_where_id : simpl never.
Local Arguments ideas_where_id_box_id : simpl never.
Local Arguments ideas_where_box_id : simpl never.

(** ** The loops *)

Lemma ideaResponses_fmap (l : slice Idea.t) :
  ideaResponses l = Some (ideaResponse <$> elems l).
Proof.
  unfold ideaResponses, make.
  rewrite <- (app_nil_l (ideaResponse <$> elems l)).
  generalize (@nil IdeaResponse.t) as acc.
  induction (elems l) as [|idea rest IH]; intros acc; simpl.
  - by rewrite app_nil_r.
  - unfold append at 2. simpl. rewrite IH.
    by rewrite <- app_assoc.
Qed.

Lemma ideaResponses_not_nil (l : slice Idea.t) : ideaResponses l ≠ None.
Proof. by rewrite ideaResponses_fmap. Qed.

Lemma boxResponses_fmap (l : list Box.t) (acc : list BoxResponse.t) :
  foldl (λ responses box, append responses (boxResponse box)) (Some acc) l
  = Some (acc ++ (boxResponse <$> l)).
Proof.
  revert acc. induction l as [|box rest IH]; intros acc; simpl.
  - by rewrite app_nil_r.
  - unfold append at 2. simpl. rewrite IH.
    by rewrite <- app_assoc.
Qed.

(** ** Storage calls that succeed *)

Lemma issue_healthy (db : DB) : healthy db → issue db = (false, db).
Proof. unfold healthy, issue. by intros ->. Qed.

Lemma issue_tables (db : DB) : tables (issue db).2 = tables db.
Proof. unfold issue. by destruct (script db). Qed.

Lemma issue_script (db : DB) f fs :
  script db = f :: fs → issue db = (f, mkDB (tables db) fs).
Proof. unfold issue. by intros ->. Qed.

Lemma issue_keeps_healthy (db : DB) : healthy db → healthy (issue db).2.
Proof. intros H. by rewrite issue_healthy. Qed.

Lemma box_absent_lookup (T : Tables) (k : Z) :
  box_absent T (Some k) ↔ boxes T !! k = None.
Proof. done. Qed.

Lemma box_absent_no_number (T : Tables) : box_absent T None.
Proof. done. Qed.

(** [First] on a missing box reports an error, whatever the engine does,
    and leaves the tables alone. *)
Lemma First_Box_absent id box db :
  box_absent (tables db) id →
  ∃ e db', First_Box id box db = ((Some e, box), db') ∧
           tables db' = tables db ∧ script db' = tail (script db).
Proof.
  unfold box_absent, First_Box, issue. intros Habs.
  destruct db as [T [|[] fs]]; simpl in *.
  - exists ErrRecordNotFound, (mkDB T []).
    destruct id as [k|]; [by rewrite Habs | done].
  - by exists ErrStorage, (mkDB T fs).
  - exists ErrRecordNotFound, (mkDB T fs).
    destruct id as [k|]; [by rewrite Habs | done].
Qed.

Lemma First_Box_found k r box db :
  healthy db → boxes (tables db) !! k = Some r →
  First_Box (Some k) box db = ((None, scan_box k r None), db).
Proof.
  intros Hh Hk. unfold First_Box, boxes_where_id.
  rewrite issue_healthy by done. simpl. by rewrite Hk.
Qed.

(** ** Validation comes first *)

Lemma ShouldBindJSON_Idea_error body e :
  ShouldBindJSON_Idea body = inl e →
  e = ErrBinding ∧
  (body = Undecodable ∨
   ∃ title description,
     body = Object title description ∧ field title = EmptyString).
Proof.
  destruct body as [|title description]; simpl.
  - intros [= <-]. auto.
  - case_decide; [|done]. intros [= <-]. eauto 6.
Qed.

Lemma ShouldBindJSON_Idea_missing_title description :
  ShouldBindJSON_Idea (Object None description) = inl ErrBinding.
Proof. done. Qed.

(** C9. In Create-Idea and Update-Idea the body is validated before the
    parent box is looked up.  A request whose body does not bind and
    whose path names a box that is not in the store is answered with the
    binding error and status 400, not 404, and the storage engine is not
    consulted at all. *)
Theorem idea_validation_before_box_lookup
  (boxID ideaID : Param) (body : Body) (e : error) (db : DB) :
  ShouldBindJSON_Idea body = inl e →
  box_absent (tables db) boxID →
  createBoxIdea boxID body db
    = (JSON StatusBadRequest (H_error (ErrorOf e)), db) ∧
  updateBoxIdea boxID ideaID body db
    = (JSON StatusBadRequest (H_error (ErrorOf e)), db) ∧
  StatusBadRequest ≠ StatusNotFound.
Proof.
  intros Hbind _. unfold createBoxIdea, updateBoxIdea.
  rewrite Hbind. by repeat split.
Qed.

Lemma idea_validation_before_box_lookup_witness :
  createBoxIdea (Some 7) (Object None (Some "x")) (mkDB empty_tables [])
    = (JSON StatusBadRequest (H_error (ErrorOf ErrBinding)),
       mkDB empty_tables []) ∧
  updateBoxIdea (Some 7) (Some 1) (Object None (Some "x"))
    (mkDB empty_tables [])
    = (JSON StatusBadRequest (H_error (ErrorOf ErrBinding)),
       mkDB empty_tables []).
Proof.
  destruct (idea_validation_before_box_lookup
              (Some 7) (Some 1) (Object None (Some "x")) ErrBinding
              (mkDB empty_tables [])) as (Hc & Hu & _);
    [reflexivity | reflexivity |].
  split; [exact Hc | exact Hu].
Defined.

(** The answer does not depend on the box: a body that does not bind is
    rejected in the same way under a box that exists. *)
Lemma idea_validation_any_box boxID ideaID body e db :
  ShouldBindJSON_Idea body = inl e →
  createBoxIdea boxID body db = (bad_request e, db) ∧
  updateBoxIdea boxID ideaID body db = (bad_request e, db).
Proof.
  intros Hbind. unfold createBoxIdea, updateBoxIdea. by rewrite Hbind.
Qed.

(** ** Requests under a box that does not exist *)

Lemma createBoxIdea_no_box boxID body request db :
  ShouldBindJSON_Idea body = inr request →
  box_absent (tables db) boxID →
  ∃ db', createBoxIdea boxID body db = (box_not_found, db') ∧
         tables db' = tables db.
Proof.
  intros Hbind Habs. unfold createBoxIdea. rewrite Hbind.
  destruct (First_Box_absent boxID zeroBox db Habs)
    as (e & db' & -> & HT & _).
  by exists db'.
Qed.

Lemma createBoxIdea_no_box_tables boxID body db :
  box_absent (tables db) boxID →
  tables (createBoxIdea boxID body db).2 = tables db.
Proof.
  intros Habs.
  destruct (ShouldBindJSON_Idea body) as [e|request] eqn:Hbind.
  - unfold createBoxIdea. by rewrite Hbind.
  - destruct (createBoxIdea_no_box _ _ _ _ Hbind Habs) as (db' & -> & HT).
    done.
Qed.

(** With a body that binds, Update-Idea under a missing box is answered
    404 as well. *)
Lemma updateBoxIdea_no_box boxID ideaID body request db :
  ShouldBindJSON_Idea body = inr request →
  box_absent (tables db) boxID →
  ∃ db', updateBoxIdea boxID ideaID body db = (box_not_found, db') ∧
         tables db' = tables db.
Proof.
  intros Hbind Habs. unfold updateBoxIdea. rewrite Hbind.
  destruct (First_Box_absent boxID zeroBox db Habs)
    as (e & db' & -> & HT & _).
  by exists db'.
Qed.

(** C4, as stated, fails: a Create-Idea request under a box that does not
    exist is answered 400, not 404, when its body has no title. *)
Lemma createBoxIdea_no_box_not_always_404 :
  ¬ (∀ (boxID : Param) (body : Body) (db : DB),
       box_absent (tables db) boxID →
       status (createBoxIdea boxID body db).1 = StatusNotFound ∧
       tables (createBoxIdea boxID body db).2 = tables db).
Proof.
  intros H.
  destruct (H (Some 7) (Object None None) (mkDB empty_tables [])) as [Hs _];
    [reflexivity|].
  vm_compute in Hs. discriminate Hs.
Qed.

(** C4, amended.  A Create-Idea request whose path names a box that is
    not in the store leaves the tables as they are, whatever its body;
    when its body passes validation, the answer is 404 with the message
    of the missing box. *)
Theorem createBoxIdea_missing_box (boxID : Param) (body : Body) (db : DB) :
  box_absent (tables db) boxID →
  tables (createBoxIdea boxID body db).2 = tables db ∧
  (∀ request, ShouldBindJSON_Idea body = inr request →
     (createBoxIdea boxID body db).1
       = JSON StatusNotFound (H_error (Literal "box not found"))).
Proof.
  intros Habs. split; [by apply createBoxIdea_no_box_tables|].
  intros request Hbind.
  by destruct (createBoxIdea_no_box _ _ _ _ Hbind Habs) as (db' & -> & _).
Qed.

Lemma createBoxIdea_missing_box_witness :
  tables (createBoxIdea (Some 7) (Object (Some "Visit Kyoto") None)
            (mkDB empty_tables [])).2 = empty_tables ∧
  (createBoxIdea (Some 7) (Object (Some "Visit Kyoto") None)
     (mkDB empty_tables [])).1
    = JSON StatusNotFound (H_error (Literal "box not found")).
Proof.
  destruct (createBoxIdea_missing_box
              (Some 7) (Object (Some "Visit Kyoto") None)
              (mkDB empty_tables [])) as [HT Hr]; [reflexivity|].
  split; [exact HT|].
  apply (Hr (IdeaRequest.mk "Visit Kyoto" EmptyString)). reflexivity.
Defined.

(** ** Deleting a box *)

Lemma deleteBox_absent id db :
  box_absent (tables db) id →
  ∃ db', deleteBox id db = (box_not_found, db') ∧
         tables db' = tables db ∧ script db' = tail (script db).
Proof.
  intros Habs. unfold deleteBox.
  destruct (First_Box_absent id zeroBox db Habs)
    as (e & db' & -> & HT & Hs).
  by exists db'.
Qed.

(** A delete answered 204 has removed the row of the box. *)
Lemma deleteBox_204_absent id db :
  status (deleteBox id db).1 = StatusNoContent →
  box_absent (tables (deleteBox id db).2) id.
Proof.
  unfold deleteBox, First_Box, Where_box_id_Delete, Delete_Box, issue,
    box_absent, boxes_where_id.
  destruct db as [T s], id as [k|]; simpl.
  - destruct s as [|[] s]; simpl; try done;
      (destruct (boxes T !! k) as [r|] eqn:Hk; simpl; [|done]).
    + case_decide; simpl; [done|]. intros _. apply lookup_delete_eq.
    + destruct s as [|[] s]; simpl.
      * case_decide; simpl; [done|]. intros _. apply lookup_delete_eq.
      * case_decide; simpl; [done|].
        destruct s as [|[] s]; simpl; try done;
          intros _; apply lookup_delete_eq.
      * case_decide; simpl; [done|].
        destruct s as [|[] s]; simpl; try done;
          intros _; apply lookup_delete_eq.
  - by destruct s as [|[] s].
Qed.

Lemma deleteBox_times_absent n id db :
  box_absent (tables db) id →
  (deleteBox_times n id db).1 = replicate n box_not_found ∧
  tables (deleteBox_times n id db).2 = tables db.
Proof.
  unfold deleteBox_times. revert db.
  induction n as [|n IH]; intros db Habs; [done|]. simpl.
  destruct (deleteBox_absent id db Habs) as (db' & -> & HT & _).
  rewrite <- HT in Habs. destruct (IH db' Habs) as [Hr HT'].
  destruct (serve (replicate n (DELETE_box id)) db') as [rs db''].
  simpl in *. by rewrite Hr, HT'.
Qed.

(** C8. Delete of a box does not succeed twice.  When the ID is not in
    the store, because it never was or because a DELETE of it was
    answered 204, every DELETE of that ID that follows is answered 404
    with the message of the missing box, and none of them changes the
    tables. *)
Theorem deleteBox_not_idempotent (id : Param) (db : DB) (n : nat) :
  (box_absent (tables db) id →
     (deleteBox_times n id db).1
       = replicate n (JSON StatusNotFound (H_error (Literal "box not found")))
     ∧ tables (deleteBox_times n id db).2 = tables db) ∧
  (status (deleteBox id db).1 = StatusNoContent →
     (deleteBox_times n id (deleteBox id db).2).1
       = replicate n (JSON StatusNotFound (H_error (Literal "box not found")))
     ∧ tables (deleteBox_times n id (deleteBox id db).2).2
       = tables (deleteBox id db).2).
Proof.
  split.
  - apply deleteBox_times_absent.
  - intros H204. apply deleteBox_times_absent. by apply deleteBox_204_absent.
Qed.

Lemma deleteBox_not_idempotent_witness :
  (deleteBox_times 2 (Some 1)
     (deleteBox (Some 1)
        (createBox (Object (Some "Travel") None) (mkDB empty_tables [])).2).2).1
  = [JSON StatusNotFound (H_error (Literal "box not found"));
     JSON StatusNotFound (H_error (Literal "box not found"))].
Proof.
  apply (deleteBox_not_idempotent (Some 1)
           (createBox (Object (Some "Travel") None) (mkDB empty_tables [])).2
           2).
  vm_compute. reflexivity.
Defined.

(** The run of [deleteBox] on a box that is there, for each outcome of
    its three storage calls. *)
Lemma deleteBox_found_script k r T f1 f2 rest :
  boxes T !! k = Some r → k ≠ 0 →
  deleteBox (Some k) (mkDB T (false :: f1 :: f2 :: rest))
  = (if f2 then JSON StatusBadRequest (H_error (ErrorOf ErrStorage))
     else JSON StatusNoContent H_empty,
     mkDB (mkTables
             (if f2 then boxes T else delete k (boxes T))
             (if f1 then ideas T
              else filter (λ p, ideas_box_id p.2 ≠ k) (ideas T))
             (boxes_seq T) (ideas_seq T))
          rest).
Proof.
  intros Hk Hnz.
  unfold deleteBox, First_Box, Where_box_id_Delete, Delete_Box, issue,
    boxes_where_id, with_boxes, with_ideas.
  simpl. rewrite Hk. simpl.
  destruct f1, f2; simpl; case_decide; try done; by destruct T.
Qed.

(** C10. The outcome of the deletion of the child ideas is discarded.
    When that call fails, the handler goes on to delete the box: the
    answer is the one it gives when the call succeeds, so the failure
    never reaches the caller, the rows of the ideas stay, and when the
    deletion of the box succeeds the answer is 204 and the box is gone
    while its ideas remain. *)
Theorem deleteBox_discards_child_deletion_error
  (k : Z) (r : boxes_row) (T : Tables) (outcome : bool) (rest : list bool) :
  boxes T !! k = Some r → k ≠ 0 →
  let failing := deleteBox (Some k) (mkDB T (false :: true :: outcome :: rest)) in
  let passing := deleteBox (Some k) (mkDB T (false :: false :: outcome :: rest)) in
  failing.1 = passing.1 ∧
  boxes (tables failing.2) = boxes (tables passing.2) ∧
  ideas (tables failing.2) = ideas T ∧
  (outcome = false →
     failing.1 = JSON StatusNoContent H_empty ∧
     boxes (tables failing.2) = delete k (boxes T)).
Proof.
  intros Hk Hnz. simpl.
  rewrite !(deleteBox_found_script k r) by done. simpl.
  do 3 (split; [done|]). by intros ->.
Qed.

Lemma deleteBox_discards_child_deletion_error_witness :
  (deleteBox (Some 1)
     (mkDB (mkTables {[ 1 := BoxesRow "Travel" EmptyString ]}
                     {[ 1 := IdeasRow "Visit Kyoto" EmptyString 1 ]} 1 1)
           [false; true; false])).1
  = JSON StatusNoContent H_empty.
Proof.
  apply (deleteBox_discards_child_deletion_error
           1 (BoxesRow "Travel" EmptyString)
           (mkTables {[ 1 := BoxesRow "Travel" EmptyString ]}
                     {[ 1 := IdeasRow "Visit Kyoto" EmptyString 1 ]} 1 1)
           false []); [reflexivity | lia | reflexivity].
Defined.

(** The ideas are deleted before the box: when the deletion of the box
    fails, the ideas are gone already and the answer is 400. *)
Lemma deleteBox_children_first k r T rest :
  boxes T !! k = Some r → k ≠ 0 →
  deleteBox (Some k) (mkDB T (false :: false :: true :: rest))
  = (JSON StatusBadRequest (H_error (ErrorOf ErrStorage)),
     mkDB (with_ideas T (filter (λ p, ideas_box_id p.2 ≠ k) (ideas T))) rest).
Proof. intros Hk Hnz. by rewrite (deleteBox_found_script k r). Qed.

(** ** Reading one idea *)

Lemma ideas_where_id_box_id_None T ideaID b :
  (∀ i r, ideaID = Some i → ideas T !! i = Some r → ideas_box_id r ≠ b) →
  ideas_where_id_box_id T ideaID (Some b) = None.
Proof.
  intros H. unfold ideas_where_id_box_id.
  destruct ideaID as [i|]; simpl; [|done].
  destruct (ideas T !! i) as [r|] eqn:Hi; simpl; [|done].
  case_decide; [|done]. by destruct (H i r).
Qed.

Lemma ideas_where_id_box_id_Some T i b r :
  ideas T !! i = Some r → ideas_box_id r = b →
  ideas_where_id_box_id T (Some i) (Some b) = Some r.
Proof.
  intros Hi Hb. unfold ideas_where_id_box_id. simpl. rewrite Hi. simpl.
  by case_decide.
Qed.

Lemma getBoxIdea_found b row i r db :
  healthy db →
  boxes (tables db) !! b = Some row →
  ideas (tables db) !! i = Some r → ideas_box_id r = b →
  getBoxIdea (Some b) (Some i) db
  = (JSON StatusOK
       (JIdea (IdeaResponse.mk i (ideas_title r) (ideas_description r))), db).
Proof.
  intros Hh Hb Hi Hr. unfold getBoxIdea.
  rewrite (First_Box_found b row) by done.
  unfold Where_id_box_id_First. rewrite issue_healthy by done.
  by rewrite (ideas_where_id_box_id_Some _ i b r).
Qed.

Lemma getBoxIdea_no_box boxID ideaID db :
  box_absent (tables db) boxID →
  (getBoxIdea boxID ideaID db).1 = box_not_found.
Proof.
  intros Habs. unfold getBoxIdea.
  by destruct (First_Box_absent boxID zeroBox db Habs)
    as (e & db' & -> & _).
Qed.

Lemma getBoxIdea_no_idea b row ideaID db :
  healthy db → boxes (tables db) !! b = Some row →
  (∀ i r, ideaID = Some i → ideas (tables db) !! i = Some r →
          ideas_box_id r ≠ b) →
  getBoxIdea (Some b) ideaID db = (idea_not_found, db).
Proof.
  intros Hh Hb Hidea. unfold getBoxIdea.
  rewrite (First_Box_found b row) by done.
  unfold Where_id_box_id_First. rewrite issue_healthy by done.
  destruct ideaID as [i|]; [|done].
  by rewrite ideas_where_id_box_id_None.
Qed.

(** C5. Get-Idea on a box that is not in the store is answered 404 with
    the message of the missing box.  When the box is there and the idea
    is not, or is the idea of another box, the answer is 404 with the
    message of the missing idea, a different text.  The second case
    supposes that the lookup of the box is not failed by the engine. *)
Theorem getBoxIdea_not_found (boxID ideaID : Param) (db : DB) :
  (box_absent (tables db) boxID →
     (getBoxIdea boxID ideaID db).1
       = JSON StatusNotFound (H_error (Literal "box not found"))) ∧
  (∀ b row,
     healthy db → boxID = Some b → boxes (tables db) !! b = Some row →
     (∀ i r, ideaID = Some i → ideas (tables db) !! i = Some r →
             ideas_box_id r ≠ b) →
     getBoxIdea boxID ideaID db
       = (JSON StatusNotFound (H_error (Literal "idea not found")), db)) ∧
  Literal "box not found" ≠ Literal "idea not found".
Proof.
  split; [|split; [|done]].
  - apply getBoxIdea_no_box.
  - intros b row Hh -> Hb Hidea. by apply (getBoxIdea_no_idea b row).
Qed.

(** The scenario of the wrong parent: box [a] has idea [i]; the idea
    asked for under another box [b] that exists is not found. *)
Lemma getBoxIdea_wrong_parent a b i r row db :
  healthy db →
  ideas (tables db) !! i = Some r → ideas_box_id r = a →
  boxes (tables db) !! b = Some row → b ≠ a →
  getBoxIdea (Some b) (Some i) db
  = (JSON StatusNotFound (H_error (Literal "idea not found")), db).
Proof.
  intros Hh Hi Ha Hb Hne. apply (getBoxIdea_no_idea b row); try done.
  intros i' r' [= <-] Hi'. congruence.
Qed.

Lemma getBoxIdea_not_found_witness :
  getBoxIdea (Some 2) (Some 1) two_boxes
  = (JSON StatusNotFound (H_error (Literal "idea not found")), two_boxes).
Proof.
  destruct (getBoxIdea_not_found (Some 2) (Some 1) two_boxes) as (_ & H & _).
  apply (H 2 (BoxesRow "B" EmptyString)); try reflexivity.
  intros i r [= <-]. vm_compute. intros [= <-]. simpl. lia.
Defined.

(** ** Updating a box *)

Lemma ShouldBindJSON_Box_ok body request :
  ShouldBindJSON_Box body = inr request →
  BoxRequest.Title request ≠ EmptyString ∧
  ∃ title description,
    body = Object title description ∧
    request = BoxRequest.mk (field title) (field description).
Proof.
  destruct body as [|title description]; simpl; [done|].
  case_decide as Ht; [done|]. intros [= <-]. eauto.
Qed.

Lemma ShouldBindJSON_Idea_ok body request :
  ShouldBindJSON_Idea body = inr request →
  IdeaRequest.Title request ≠ EmptyString ∧
  ∃ title description,
    body = Object title description ∧
    request = IdeaRequest.mk (field title) (field description).
Proof.
  destruct body as [|title description]; simpl; [done|].
  case_decide as Ht; [done|]. intros [= <-]. eauto.
Qed.

Lemma assign_non_empty new old : new ≠ EmptyString → assign new old = new.
Proof. unfold assign. by case_decide. Qed.

Lemma assign_empty old : assign EmptyString old = old.
Proof. done. Qed.

Lemma alter_as_insert {A} (f : A → A) (m : gmap Z A) k x :
  m !! k = Some x → alter f k m = <[k := f x]> m.
Proof.
  intros Hk. apply map_eq. intros j.
  rewrite lookup_alter, lookup_insert.
  case_decide; [subst; by rewrite Hk | done].
Qed.

Lemma Model_Updates_Box_ok box values r db :
  healthy db → Box.ID box ≠ 0 →
  BoxRequest.Title values ≠ EmptyString →
  boxes (tables db) !! Box.ID box = Some r →
  Model_Updates_Box box values db
  = ((None,
      Box.mk (Box.ID box) (BoxRequest.Title values)
             (assign (BoxRequest.Description values) (Box.Description box))
             (Box.Ideas box)),
     mkDB (with_boxes (tables db)
             (<[Box.ID box :=
                  BoxesRow (BoxRequest.Title values)
                           (assign (BoxRequest.Description values)
                                   (boxes_description r))]>
                (boxes (tables db))))
          (script db)).
Proof.
  intros Hh Hnz Ht Hk. unfold Model_Updates_Box.
  case_decide as Hzero; [by destruct Hzero|].
  case_decide; [done|].
  rewrite issue_healthy by done.
  rewrite (alter_as_insert _ _ _ r) by done.
  by rewrite !(assign_non_empty (BoxRequest.Title values)) by done.
Qed.

Lemma updateBox_found k row body request db :
  healthy db → k ≠ 0 → boxes (tables db) !! k = Some row →
  ShouldBindJSON_Box body = inr request →
  updateBox (Some k) body db
  = (JSON StatusOK
       (JBox (BoxResponse.mk k (BoxRequest.Title request)
                (assign (BoxRequest.Description request)
                        (boxes_description row))
                (Some []))),
     mkDB (with_boxes (tables db)
             (<[k := BoxesRow (BoxRequest.Title request)
                              (assign (BoxRequest.Description request)
                                      (boxes_description row))]>
                (boxes (tables db))))
          (script db)).
Proof.
  intros Hh Hnz Hk Hbind. unfold updateBox. rewrite Hbind.
  destruct (ShouldBindJSON_Box_ok _ _ Hbind) as [Ht _].
  rewrite (First_Box_found k row) by done.
  destruct request as [title description]; simpl in *.
  by rewrite (Model_Updates_Box_ok _ _ row).
Qed.

(** C1, as stated, fails: an update whose description is empty leaves
    the stored description as it was. *)
Lemma updateBox_empty_description_not_cleared :
  ¬ (∀ (k : Z) (row : boxes_row) (body : Body) (request : BoxRequest.t)
       (db : DB),
       healthy db → k ≠ 0 → boxes (tables db) !! k = Some row →
       ShouldBindJSON_Box body = inr request →
       boxes (tables (updateBox (Some k) body db).2) !! k
       = Some (BoxesRow (BoxRequest.Title request)
                        (BoxRequest.Description request))).
Proof.
  intros H.
  specialize (H 1 (BoxesRow "Travel" "places to see")
                (Object (Some "Trips") (Some EmptyString))
                (BoxRequest.mk "Trips" EmptyString)
                (mkDB (mkTables {[ 1 := BoxesRow "Travel" "places to see" ]}
                                ∅ 1 0) [])).
  vm_compute in H.
  by specialize (H eq_refl ltac:(discriminate) eq_refl eq_refl).
Qed.

(** C1, amended.  For every box in the store and every update request
    that passes validation, Box Update overwrites the stored Title with
    the request's title, and overwrites the stored Description with the
    request's description when that one is not empty; a request whose
    description is empty or absent leaves the stored Description as it
    was.  The answer carries the stored values and an empty Ideas list;
    no other row changes. *)
Theorem updateBox_overwrites_non_empty
  (k : Z) (row : boxes_row) (body : Body) (request : BoxRequest.t) (db : DB) :
  healthy db → k ≠ 0 → boxes (tables db) !! k = Some row →
  ShouldBindJSON_Box body = inr request →
  let description :=
    if decide (BoxRequest.Description request = EmptyString)
    then boxes_description row else BoxRequest.Description request in
  let db' := (updateBox (Some k) body db).2 in
  (updateBox (Some k) body db).1
    = JSON StatusOK
        (JBox (BoxResponse.mk k (BoxRequest.Title request) description
                              (Some []))) ∧
  boxes (tables db') !! k
    = Some (BoxesRow (BoxRequest.Title request) description) ∧
  (∀ j, j ≠ k → boxes (tables db') !! j = boxes (tables db) !! j) ∧
  ideas (tables db') = ideas (tables db).
Proof.
  intros Hh Hnz Hk Hbind. simpl.
  rewrite (updateBox_found k row body request) by done.
  simpl. fold (assign (BoxRequest.Description request) (boxes_description row)).
  split; [done|]. split; [by rewrite lookup_insert_eq|].
  split; [|done]. intros j Hj. by rewrite lookup_insert_ne.
Qed.

Lemma updateBox_overwrites_non_empty_witness :
  boxes (tables
    (updateBox (Some 1) (Object (Some "Trips") None)
       (mkDB (mkTables {[ 1 := BoxesRow "Travel" "places to see" ]} ∅ 1 0)
             [])).2) !! 1
  = Some (BoxesRow "Trips" "places to see").
Proof.
  apply (updateBox_overwrites_non_empty
           1 (BoxesRow "Travel" "places to see")
           (Object (Some "Trips") None) (BoxRequest.mk "Trips" EmptyString)
           (mkDB (mkTables {[ 1 := BoxesRow "Travel" "places to see" ]} ∅ 1 0)
                 []));
    [reflexivity | lia | reflexivity | reflexivity].
Defined.

(** ** The cascade of Delete *)

Lemma Preload_Ideas_First_absent id box db :
  box_absent (tables db) id →
  ∃ e db', Preload_Ideas_First id box db = ((Some e, box), db') ∧
           tables db' = tables db.
Proof.
  unfold box_absent, Preload_Ideas_First, issue. intros Habs.
  destruct db as [T [|[] fs]]; simpl in *.
  - exists ErrRecordNotFound, (mkDB T []).
    destruct id as [k|]; [by rewrite Habs | done].
  - by exists ErrStorage, (mkDB T fs).
  - exists ErrRecordNotFound, (mkDB T fs).
    destruct id as [k|]; [by rewrite Habs | done].
Qed.

Lemma getBox_no_box id db :
  box_absent (tables db) id → (getBox id db).1 = box_not_found.
Proof.
  intros Habs. unfold getBox.
  by destruct (Preload_Ideas_First_absent id zeroBox db Habs)
    as (e & db' & -> & _).
Qed.

Lemma deleteBox_found k r db :
  healthy db → k ≠ 0 → boxes (tables db) !! k = Some r →
  deleteBox (Some k) db
  = (JSON StatusNoContent H_empty,
     mkDB (mkTables (delete k (boxes (tables db)))
                    (filter (λ p, ideas_box_id p.2 ≠ k) (ideas (tables db)))
                    (boxes_seq (tables db)) (ideas_seq (tables db)))
          []).
Proof.
  intros Hh Hnz Hk. destruct db as [T s]. unfold healthy in Hh.
  simpl in *. subst s.
  unfold deleteBox, First_Box, Where_box_id_Delete, Delete_Box, issue,
    boxes_where_id, with_boxes, with_ideas.
  simpl. rewrite Hk. simpl. by case_decide.
Qed.

Lemma wf_key_positive T k r : wf T → boxes T !! k = Some r → 0 < k ≤ maxRowid.
Proof.
  intros (Hb & _ & _ & Hs & _) Hk. specialize (Hb k r Hk). simpl in Hb. lia.
Qed.

(** X20. For every box in the store, a Delete of it whose storage calls
    all succeed is answered 204 and removes the box and every idea whose
    BoxID is the ID of the box, and nothing else.  After it, Get of the
    box and Get-Idea under the box, for any idea ID, are answered 404; and
    when every idea referred to a box of the store before, this is so
    after. *)
Theorem deleteBox_cascade (k : Z) (row : boxes_row) (db : DB) :
  healthy db → wf (tables db) → boxes (tables db) !! k = Some row →
  let db' := (deleteBox (Some k) db).2 in
  (deleteBox (Some k) db).1 = JSON StatusNoContent H_empty ∧
  boxes (tables db') !! k = None ∧
  (∀ j, j ≠ k → boxes (tables db') !! j = boxes (tables db) !! j) ∧
  (∀ i r, ideas (tables db') !! i = Some r ↔
          ideas (tables db) !! i = Some r ∧ ideas_box_id r ≠ k) ∧
  (getBox (Some k) db').1
    = JSON StatusNotFound (H_error (Literal "box not found")) ∧
  (∀ ideaID,
     (getBoxIdea (Some k) ideaID db').1
       = JSON StatusNotFound (H_error (Literal "box not found"))) ∧
  (no_orphans (tables db) → no_orphans (tables db')).
Proof.
  intros Hh Hwf Hk. simpl.
  assert (k ≠ 0) as Hnz by (pose proof (wf_key_positive _ _ _ Hwf Hk); lia).
  rewrite (deleteBox_found k row) by done. simpl.
  assert (delete k (boxes (tables db)) !! k = None) as Hgone
    by apply lookup_delete_eq.
  split; [done|]. split; [done|].
  split; [intros j Hj; by rewrite lookup_delete_ne|].
  split; [intros i r; by rewrite map_lookup_filter_Some|].
  split; [by apply getBox_no_box|].
  split; [intros ideaID; by apply getBoxIdea_no_box|].
  intros Hno i r. simpl. rewrite map_lookup_filter_Some. simpl.
  intros [Hi Hne]. rewrite lookup_delete_ne by done. by apply (Hno i r).
Qed.

Lemma deleteBox_cascade_witness :
  (getBoxIdea (Some 1) (Some 1) (deleteBox (Some 1) two_boxes).2).1
  = JSON StatusNotFound (H_error (Literal "box not found")).
Proof.
  apply (deleteBox_cascade 1 (BoxesRow "A" EmptyString) two_boxes);
    [reflexivity | apply (bool_decide_unpack _); by vm_compute | reflexivity].
Defined.

(** C2, where [deleteBox] departs from it.  Box 1 holds idea 1 and every
    idea refers to a box of the store.  The lookup of the box succeeds,
    the deletion of the ideas fails and the deletion of the box
    succeeds: Delete of box 1 is answered 204 and the box is gone, so
    the handler reports a successful delete, yet idea 1 is still stored
    with BoxID 1.  The ideas of the box were not removed, and an idea
    now refers to a box that is not in the store.  Get of the box and
    Get of the idea under it are answered 404 all the same. *)
Theorem deleteBox_204_keeps_ideas :
  let db := mkDB (tables two_boxes) [false; true; false] in
  let db' := (deleteBox (Some 1) db).2 in
  wf (tables db) ∧ no_orphans (tables db) ∧
  boxes (tables db) !! 1 = Some (BoxesRow "A" EmptyString) ∧
  ideas (tables db) !! 1 = Some (IdeasRow "I1" EmptyString 1) ∧
  (deleteBox (Some 1) db).1 = JSON StatusNoContent H_empty ∧
  boxes (tables db') !! 1 = None ∧
  ideas (tables db') !! 1 = Some (IdeasRow "I1" EmptyString 1) ∧
  ¬ no_orphans (tables db') ∧
  (getBox (Some 1) db').1
    = JSON StatusNotFound (H_error (Literal "box not found")) ∧
  (getBoxIdea (Some 1) (Some 1) db').1
    = JSON StatusNotFound (H_error (Literal "box not found")).
Proof.
  simpl.
  split; [apply (bool_decide_unpack _); by vm_compute|].
  split; [apply (bool_decide_unpack _); by vm_compute|].
  do 5 (split; [by vm_compute|]).
  split; [apply (bool_decide_unpack _); by vm_compute|].
  split; by vm_compute.
Qed.

(** ** What a box shows *)

Lemma elem_of_ideas_where_box_id T k idea :
  idea ∈ ideas_where_box_id T k ↔
  ∃ i r, ideas T !! i = Some r ∧ ideas_box_id r = k ∧ idea = scan_idea (i, r).
Proof.
  unfold ideas_where_box_id. rewrite list_elem_of_fmap. split.
  - intros ([i r] & -> & Hin). apply list_elem_of_filter in Hin as [Hk Hin].
    apply elem_of_map_to_list in Hin. by exists i, r.
  - intros (i & r & Hi & Hk & ->). exists (i, r). split; [done|].
    apply list_elem_of_filter. split; [done|]. by apply elem_of_map_to_list.
Qed.

Lemma ideas_where_box_id_NoDup T k :
  NoDup (Idea.ID <$> ideas_where_box_id T k).
Proof.
  unfold ideas_where_box_id. rewrite <- list_fmap_compose.
  apply (sublist_NoDup _ ((map_to_list (ideas T)).*1)).
  - apply NoDup_fst_map_to_list.
  - apply (fmap_sublist fst), sublist_filter.
Qed.

Lemma ideas_where_box_id_nil T k :
  (∀ i r, ideas T !! i = Some r → ideas_box_id r ≠ k) →
  ideas_where_box_id T k = [].
Proof.
  intros Hnone.
  destruct (ideas_where_box_id T k) as [|idea rest] eqn:Hl; [done|].
  assert (idea ∈ ideas_where_box_id T k) as Hin
    by (rewrite Hl; apply list_elem_of_here).
  apply elem_of_ideas_where_box_id in Hin as (i & r & Hi & Hk & _).
  by destruct (Hnone i r).
Qed.

Lemma lists_ideas_of_where T k :
  lists_ideas_of T k (ideaResponse <$> ideas_where_box_id T k).
Proof.
  split.
  - rewrite <- list_fmap_compose. apply ideas_where_box_id_NoDup.
  - intros x. rewrite list_elem_of_fmap. split.
    + intros (idea & -> & Hin).
      apply elem_of_ideas_where_box_id in Hin as (i & r & Hi & Hk & ->).
      by exists i, r.
    + intros (i & r & Hi & Hk & ->). exists (scan_idea (i, r)).
      split; [done|]. apply elem_of_ideas_where_box_id. by exists i, r.
Qed.

Lemma getBox_found k row db :
  healthy db → boxes (tables db) !! k = Some row →
  getBox (Some k) db
  = (JSON StatusOK
       (JBox (BoxResponse.mk k (boxes_title row) (boxes_description row)
                (Some (ideaResponse <$> ideas_where_box_id (tables db) k)))),
     db).
Proof.
  intros Hh Hk. unfold getBox, Preload_Ideas_First, boxes_where_id.
  rewrite issue_healthy by done. simpl. rewrite Hk. simpl.
  by rewrite ideaResponses_fmap.
Qed.

(** C6. For every box in the store, Get answers 200 with the ID, the
    Title and the Description of the box as stored, and an Ideas list
    that holds the ideas in the store whose BoxID is the ID of the box,
    each once and in no promised order, and no other; the store is left
    as it is. *)
Theorem getBox_returns_stored (k : Z) (row : boxes_row) (db : DB) :
  healthy db → boxes (tables db) !! k = Some row →
  ∃ l,
    getBox (Some k) db
    = (JSON StatusOK
         (JBox (BoxResponse.mk k (boxes_title row) (boxes_description row)
                               (Some l))), db) ∧
    lists_ideas_of (tables db) k l.
Proof.
  intros Hh Hk.
  exists (ideaResponse <$> ideas_where_box_id (tables db) k).
  split; [by apply getBox_found | apply lists_ideas_of_where].
Qed.

Lemma getBox_returns_stored_witness :
  ∃ l,
    getBox (Some 1) two_boxes
    = (JSON StatusOK (JBox (BoxResponse.mk 1 "A" EmptyString (Some l))),
       two_boxes) ∧
    lists_ideas_of (tables two_boxes) 1 l.
Proof.
  apply (getBox_returns_stored 1 (BoxesRow "A" EmptyString) two_boxes);
    reflexivity.
Defined.

(** ** Creating a box *)

Lemma createBox_created title description db :
  healthy db → boxes_seq (tables db) < maxRowid →
  field title ≠ EmptyString →
  createBox (Object title description) db
  = (JSON StatusCreated
       (JBox (BoxResponse.mk (boxes_seq (tables db) + 1) (field title)
                             (field description) (Some []))),
     mkDB (mkTables
             (<[boxes_seq (tables db) + 1 :=
                  BoxesRow (field title) (field description)]>
                (boxes (tables db)))
             (ideas (tables db)) (boxes_seq (tables db) + 1)
             (ideas_seq (tables db)))
          []).
Proof.
  intros Hh Hseq Ht. destruct db as [T s]. unfold healthy in Hh.
  simpl in *. subst s.
  unfold createBox, ShouldBindJSON_Box, Create_Box, issue. simpl.
  case_decide; [done|]. simpl.
  by destruct (Z.ltb_spec (boxes_seq T) maxRowid); [|lia].
Qed.

(** C3. A Create-Box request whose title is empty or absent is answered
    400 with the binding error and changes nothing.  One whose title is
    not empty, when the storage call succeeds, is answered 201 with the
    new ID, the title and the description of the request and an empty,
    non-null Ideas list; the box is stored under an ID no box had, and a
    Get of that ID right after is answered 200 with the same
    representation. *)
Theorem createBox_validates_title
  (title description : option string) (db : DB) :
  (field title = EmptyString →
     createBox (Object title description) db
     = (JSON StatusBadRequest (H_error (ErrorOf ErrBinding)), db)) ∧
  (field title ≠ EmptyString →
   healthy db → wf (tables db) → boxes_seq (tables db) < maxRowid →
     ∃ id,
       let created :=
         JBox (BoxResponse.mk id (field title) (field description) (Some []))
       in
       let db' := (createBox (Object title description) db).2 in
       (createBox (Object title description) db).1
         = JSON StatusCreated created ∧
       boxes (tables db) !! id = None ∧
       boxes (tables db')
         = <[id := BoxesRow (field title) (field description)]>
             (boxes (tables db)) ∧
       ideas (tables db') = ideas (tables db) ∧
       getBox (Some id) db' = (JSON StatusOK created, db')).
Proof.
  split.
  - intros Ht. unfold createBox, ShouldBindJSON_Box. simpl.
    by case_decide.
  - intros Ht Hh Hwf Hseq. exists (boxes_seq (tables db) + 1). simpl.
    rewrite createBox_created by done. simpl.
    destruct Hwf as (Hb & _ & Hrefs & _).
    split; [done|]. split.
    { destruct (boxes (tables db) !! (boxes_seq (tables db) + 1))
        as [r|] eqn:Hk; [|done].
      specialize (Hb _ _ Hk). simpl in Hb. lia. }
    split; [done|]. split; [done|].
    rewrite (getBox_found _ (BoxesRow (field title) (field description)));
      [|done|by apply lookup_insert_eq].
    simpl. rewrite ideas_where_box_id_nil; [done|].
    simpl. intros i r Hi. specialize (Hrefs i r Hi). simpl in Hrefs. lia.
Qed.

Lemma createBox_validates_title_witness :
  createBox (Object None (Some "no title")) (mkDB empty_tables [])
    = (JSON StatusBadRequest (H_error (ErrorOf ErrBinding)),
       mkDB empty_tables []) ∧
  ∃ id,
    (createBox (Object (Some "Travel") None) (mkDB empty_tables [])).1
      = JSON StatusCreated
          (JBox (BoxResponse.mk id "Travel" EmptyString (Some []))) ∧
    getBox (Some id)
      (createBox (Object (Some "Travel") None) (mkDB empty_tables [])).2
    = (JSON StatusOK (JBox (BoxResponse.mk id "Travel" EmptyString (Some []))),
       (createBox (Object (Some "Travel") None) (mkDB empty_tables [])).2).
Proof.
  split.
  - apply (createBox_validates_title None (Some "no title")
             (mkDB empty_tables [])). reflexivity.
  - destruct (createBox_validates_title (Some "Travel") None
                (mkDB empty_tables [])) as [_ H].
    destruct H as (id & Hr & _ & _ & _ & Hget);
      [discriminate | reflexivity
      | apply (bool_decide_unpack _); by vm_compute | reflexivity |].
    exists id. split; [exact Hr | exact Hget].
Defined.

(** A body that does not decode is rejected as well. *)
Lemma createBox_undecodable db :
  createBox Undecodable db
  = (JSON StatusBadRequest (H_error (ErrorOf ErrBinding)), db).
Proof. done. Qed.

(** ** Listing the boxes *)

Lemma getBoxes_healthy db :
  healthy db →
  getBoxes db
  = (JSON StatusOK
       (JBoxes (Some (boxResponse <$>
                        (load_box (tables db) <$>
                           map_to_list (boxes (tables db)))))), db).
Proof.
  intros Hh. unfold getBoxes, Preload_Ideas_Find.
  rewrite issue_healthy by done. simpl.
  pose proof (boxResponses_fmap
                (load_box (tables db) <$> map_to_list (boxes (tables db))) [])
    as Hloop.
  unfold boxResponse, make in *. simpl in Hloop. by rewrite <- Hloop.
Qed.

Lemma boxResponse_load_box T k row :
  boxResponse (load_box T (k, row))
  = BoxResponse.mk k (boxes_title row) (boxes_description row)
      (Some (ideaResponse <$> ideas_where_box_id T k)).
Proof. unfold boxResponse, load_box. simpl. by rewrite ideaResponses_fmap. Qed.

(** C7. List-Boxes answers 200 with one entry for every box of the store
    and no other entry.  An entry carries the ID, Title and Description
    of its box and the ideas of that box, each by id, title and
    description, the only fields an [IdeaResponse] has.  The Ideas list
    of an entry is never null, and is the empty list when the box has no
    idea. *)
Theorem getBoxes_lists_every_box (db : DB) :
  healthy db →
  ∃ l,
    getBoxes db = (JSON StatusOK (JBoxes (Some l)), db) ∧
    NoDup (BoxResponse.ID <$> l) ∧
    (∀ k row, boxes (tables db) !! k = Some row →
       ∃ shown,
         BoxResponse.mk k (boxes_title row) (boxes_description row)
                        (Some shown) ∈ l ∧
         lists_ideas_of (tables db) k shown) ∧
    (∀ b, b ∈ l →
       ∃ row shown,
         boxes (tables db) !! BoxResponse.ID b = Some row ∧
         BoxResponse.Title b = boxes_title row ∧
         BoxResponse.Description b = boxes_description row ∧
         BoxResponse.Ideas b = Some shown ∧
         lists_ideas_of (tables db) (BoxResponse.ID b) shown ∧
         ((∀ i r, ideas (tables db) !! i = Some r →
                  ideas_box_id r ≠ BoxResponse.ID b) →
          shown = [])).
Proof.
  intros Hh.
  exists (boxResponse <$>
            (load_box (tables db) <$> map_to_list (boxes (tables db)))).
  split; [by apply getBoxes_healthy|]. split; [|split].
  - rewrite <- !list_fmap_compose.
    apply (NoDup_fst_map_to_list (boxes (tables db))).
  - intros k row Hk.
    exists (ideaResponse <$> ideas_where_box_id (tables db) k).
    split; [|apply lists_ideas_of_where].
    rewrite <- boxResponse_load_box, <- list_fmap_compose.
    apply list_elem_of_fmap. exists (k, row).
    split; [done | by apply elem_of_map_to_list].
  - intros b Hb. rewrite <- list_fmap_compose in Hb.
    apply list_elem_of_fmap in Hb as ([k row] & -> & Hin).
    apply elem_of_map_to_list in Hin. simpl.
    rewrite ideaResponses_fmap. simpl.
    exists row, (ideaResponse <$> ideas_where_box_id (tables db) k).
    do 4 (split; [done|]). split; [apply lists_ideas_of_where|].
    intros Hnone. by rewrite ideas_where_box_id_nil.
Qed.

Lemma getBoxes_lists_every_box_witness :
  ∃ l, getBoxes two_boxes = (JSON StatusOK (JBoxes (Some l)), two_boxes) ∧
       NoDup (BoxResponse.ID <$> l).
Proof.
  destruct (getBoxes_lists_every_box two_boxes) as (l & Hl & Hnd & _);
    [reflexivity|].
  by exists l.
Defined.

(** * Invariants of the store *)

(** ** What each storage call keeps *)

Lemma issue_inv db f db' :
  issue db = (f, db') →
  tables db' = tables db ∧ (healthy db → healthy db' ∧ f = false).
Proof.
  unfold issue, healthy. destruct (script db) as [|f' fs] eqn:Hs.
  - intros [= <- <-]. by rewrite Hs.
  - intros [= <- <-]. simpl. split; [done|]. discriminate.
Qed.

Ltac issue_step :=
  match goal with
  | |- context [issue ?db] =>
      let f := fresh "failed" in
      let db1 := fresh "db" in
      let Hi := fresh "Hissue" in
      let HT := fresh "HT" in
      let Hh := fresh "Hhealthy" in
      destruct (issue db) as [f db1] eqn:Hi;
      destruct (issue_inv _ _ _ Hi) as [HT Hh]; clear Hi
  end.

Lemma First_Box_inv id box db err box' db' :
  First_Box id box db = ((err, box'), db') →
  tables db' = tables db ∧ (healthy db → healthy db') ∧
  (err = None →
     ∃ k r, id = Some k ∧ boxes (tables db) !! k = Some r ∧
            box' = scan_box k r None).
Proof.
  unfold First_Box, boxes_where_id. issue_step. rewrite HT.
  assert (healthy db → healthy db0) as Hh' by (intros ?; by apply Hhealthy).
  destruct failed; [by intros [= <- <- <-]|].
  destruct id as [k|]; simpl; [|by intros [= <- <- <-]].
  destruct (boxes (tables db) !! k) as [r|] eqn:Hk; simpl;
    intros [= <- <- <-]; [|done].
  do 2 (split; [done|]). intros _. by exists k, r.
Qed.

Lemma Where_id_box_id_First_inv ideaID boxID idea db err idea' db' :
  Where_id_box_id_First ideaID boxID idea db = ((err, idea'), db') →
  tables db' = tables db ∧ (healthy db → healthy db') ∧
  (err = None →
     ∃ i b r, ideaID = Some i ∧ boxID = Some b ∧
              ideas (tables db) !! i = Some r ∧ ideas_box_id r = b ∧
              idea' = scan_idea (i, r)).
Proof.
  unfold Where_id_box_id_First, ideas_where_id_box_id. issue_step.
  rewrite HT.
  assert (healthy db → healthy db0) as Hh' by (intros ?; by apply Hhealthy).
  destruct failed; [by intros [= <- <- <-]|].
  destruct ideaID as [i|]; simpl; [|by intros [= <- <- <-]].
  destruct boxID as [b|]; simpl; [|by intros [= <- <- <-]].
  destruct (ideas (tables db) !! i) as [r|] eqn:Hi; simpl;
    [|by intros [= <- <- <-]].
  case_decide; intros [= <- <- <-]; [|done].
  do 2 (split; [done|]). intros _. by exists i, b, r.
Qed.

Lemma Preload_Ideas_First_inv id box db :
  tables (Preload_Ideas_First id box db).2 = tables db ∧
  (healthy db → healthy (Preload_Ideas_First id box db).2).
Proof.
  unfold Preload_Ideas_First. issue_step.
  assert (healthy db → healthy db0) as Hh' by (intros ?; by apply Hhealthy).
  destruct failed; [done|]. by repeat case_match.
Qed.

Lemma Preload_Ideas_Find_inv boxes0 db :
  tables (Preload_Ideas_Find boxes0 db).2 = tables db ∧
  (healthy db → healthy (Preload_Ideas_Find boxes0 db).2).
Proof.
  unfold Preload_Ideas_Find. issue_step.
  assert (healthy db → healthy db0) as Hh' by (intros ?; by apply Hhealthy).
  by destruct failed.
Qed.

Lemma Where_box_id_Find_inv boxID ideas0 db :
  tables (Where_box_id_Find boxID ideas0 db).2 = tables db ∧
  (healthy db → healthy (Where_box_id_Find boxID ideas0 db).2).
Proof.
  unfold Where_box_id_Find. issue_step.
  assert (healthy db → healthy db0) as Hh' by (intros ?; by apply Hhealthy).
  by destruct failed.
Qed.

Lemma ideas_within_refl m : ideas_within m m.
Proof. intros i r Hi. by exists r. Qed.

Lemma ideas_within_delete m i : ideas_within m (delete i m).
Proof.
  intros j r Hj. exists r. split; [|done].
  by apply (lookup_weaken _ _ _ _ Hj), delete_subseteq.
Qed.

Lemma ideas_within_filter (P : Z * ideas_row → Prop)
  `{!∀ p, Decision (P p)} m : ideas_within m (filter P m).
Proof.
  intros j r Hj. exists r. split; [|done].
  by apply map_lookup_filter_Some in Hj as [Hj _].
Qed.

Lemma ideas_within_alter f m i :
  (∀ r, ideas_box_id (f r) = ideas_box_id r) →
  ideas_within m (alter f i m).
Proof.
  intros Hf j r Hj.
  apply lookup_alter_Some in Hj as [(-> & r0 & Hr0 & ->)|[_ Hj]].
  - by exists r0.
  - by exists r.
Qed.

Lemma wf_ideas_within T m :
  wf T → ideas_within (ideas T) m → wf (with_ideas T m).
Proof.
  intros (Hb & Hi & Hrefs & Hs) Hsub. unfold wf. simpl.
  split; [done|]. split; [|split; [|done]].
  - intros i r Hir. destruct (Hsub i r Hir) as (r0 & Hr0 & _).
    by apply (Hi i r0).
  - intros i r Hir. destruct (Hsub i r Hir) as (r0 & Hr0 & <-).
    by apply (Hrefs i r0).
Qed.

Lemma wf_boxes_within T m :
  wf T → (∀ k, is_Some (m !! k) → is_Some (boxes T !! k)) →
  wf (with_boxes T m).
Proof.
  intros (Hb & Hi & Hrefs & Hs) Hsub. unfold wf. simpl.
  split; [|done].
  intros k r Hk. destruct (Hsub k) as [r0 Hr0]; [by exists r|].
  by apply (Hb k r0).
Qed.

Lemma no_orphans_within T T' :
  no_orphans T → ideas_within (ideas T) (ideas T') →
  (∀ k, is_Some (boxes T !! k) → is_Some (boxes T' !! k)) →
  no_orphans T'.
Proof.
  intros Hno Hsub Hkeys i r Hi.
  destruct (Hsub i r Hi) as (r0 & Hr0 & <-).
  by apply Hkeys, (Hno i r0).
Qed.

Lemma alter_is_Some {A} (f : A → A) (m : gmap Z A) i k :
  is_Some (alter f i m !! k) ↔ is_Some (m !! k).
Proof.
  rewrite lookup_alter. case_decide; [subst|done].
  by rewrite fmap_is_Some.
Qed.

(** What a storage call that writes keeps: the engine stays healthy,
    the tables stay well formed and, where stated, ideas keep referring
    to boxes of the store. *)
Lemma Create_Box_inv box db :
  let db' := (Create_Box box db).2 in
  (healthy db → healthy db') ∧
  (wf (tables db) → wf (tables db')) ∧
  (no_orphans (tables db) → no_orphans (tables db')).
Proof.
  unfold Create_Box. issue_step. rewrite HT.
  assert (healthy db → healthy db0) as Hh' by (intros ?; by apply Hhealthy).
  destruct failed; simpl; [by rewrite HT|].
  destruct (Z.ltb_spec (boxes_seq (tables db)) maxRowid) as [Hlt|Hge];
    simpl; [|by rewrite HT].
  split; [done|]. split.
  - intros (Hb & Hi & Hrefs & Hs & Hs'). unfold wf. simpl.
    split; [|split; [done|split; [|split; [lia|done]]]].
    + apply map_Forall_insert_2; [simpl; lia|].
      eapply map_Forall_impl; [exact Hb|]. simpl. intros. lia.
    + eapply map_Forall_impl; [exact Hrefs|]. simpl. intros. lia.
  - intros Hno. eapply no_orphans_within; [exact Hno|apply ideas_within_refl|].
    simpl. intros k Hk. rewrite lookup_insert. by case_decide.
Qed.

Lemma Create_Idea_inv idea db :
  let db' := (Create_Idea idea db).2 in
  (healthy db → healthy db') ∧
  (wf (tables db) → 0 < Idea.BoxID idea ≤ boxes_seq (tables db) →
   wf (tables db')) ∧
  (no_orphans (tables db) →
   is_Some (boxes (tables db) !! Idea.BoxID idea) →
   no_orphans (tables db')).
Proof.
  unfold Create_Idea. issue_step. rewrite HT.
  assert (healthy db → healthy db0) as Hh' by (intros ?; by apply Hhealthy).
  destruct failed; simpl; [by rewrite HT|].
  destruct (Z.ltb_spec (ideas_seq (tables db)) maxRowid) as [Hlt|Hge];
    simpl; [|by rewrite HT].
  split; [done|]. split.
  - intros (Hb & Hi & Hrefs & Hs & Hs') Hbox. unfold wf. simpl.
    split; [done|]. split; [|split; [|split; [done|lia]]].
    + apply map_Forall_insert_2; [simpl; lia|].
      eapply map_Forall_impl; [exact Hi|]. simpl. intros. lia.
    + by apply map_Forall_insert_2.
  - intros Hno Hbox. by apply map_Forall_insert_2.
Qed.

Lemma Model_Updates_Box_inv box values db :
  let db' := (Model_Updates_Box box values db).2 in
  (healthy db → healthy db') ∧
  (wf (tables db) → wf (tables db')) ∧
  (no_orphans (tables db) → no_orphans (tables db')).
Proof.
  unfold Model_Updates_Box. do 2 (case_decide; [done|]).
  issue_step. rewrite HT.
  assert (healthy db → healthy db0) as Hh' by (intros ?; by apply Hhealthy).
  destruct failed; simpl; [by rewrite HT|].
  split; [done|]. split.
  - intros Hwf. apply wf_boxes_within; [done|].
    intros k. by rewrite alter_is_Some.
  - intros Hno. eapply no_orphans_within; [exact Hno|apply ideas_within_refl|].
    simpl. intros k. by rewrite alter_is_Some.
Qed.

Lemma Model_Updates_Idea_inv idea values db :
  let db' := (Model_Updates_Idea idea values db).2 in
  (healthy db → healthy db') ∧
  (wf (tables db) → wf (tables db')) ∧
  (no_orphans (tables db) → no_orphans (tables db')).
Proof.
  unfold Model_Updates_Idea. do 2 (case_decide; [done|]).
  issue_step. rewrite HT.
  assert (healthy db → healthy db0) as Hh' by (intros ?; by apply Hhealthy).
  destruct failed; simpl; [by rewrite HT|].
  split; [done|]. split.
  - intros Hwf. apply wf_ideas_within; [done|]. by apply ideas_within_alter.
  - intros Hno. eapply no_orphans_within; [exact Hno| |done].
    by apply ideas_within_alter.
Qed.

Lemma Where_box_id_Delete_inv id db :
  let db' := (Where_box_id_Delete id db).2 in
  (healthy db → healthy db') ∧
  (wf (tables db) → wf (tables db')) ∧
  (no_orphans (tables db) → no_orphans (tables db')) ∧
  boxes (tables db') = boxes (tables db).
Proof.
  unfold Where_box_id_Delete. issue_step. rewrite HT.
  assert (healthy db → healthy db0) as Hh' by (intros ?; by apply Hhealthy).
  destruct failed; simpl; [by rewrite HT|].
  destruct id as [k|]; simpl; [|by rewrite HT].
  split; [done|]. split; [|split; [|done]].
  - intros Hwf. apply wf_ideas_within; [done|]. apply ideas_within_filter.
  - intros Hno. eapply no_orphans_within; [exact Hno| |done].
    apply ideas_within_filter.
Qed.

Lemma Delete_Box_inv box db :
  let db' := (Delete_Box box db).2 in
  (healthy db → healthy db') ∧ (wf (tables db) → wf (tables db')).
Proof.
  unfold Delete_Box. case_decide; [done|].
  issue_step. rewrite HT.
  assert (healthy db → healthy db0) as Hh' by (intros ?; by apply Hhealthy).
  destruct failed; simpl; [by rewrite HT|].
  split; [done|]. intros Hwf. apply wf_boxes_within; [done|].
  intros k [r Hk]. exists r.
  by apply (lookup_weaken _ _ _ _ Hk), delete_subseteq.
Qed.

Lemma Delete_Idea_inv idea db :
  let db' := (Delete_Idea idea db).2 in
  (healthy db → healthy db') ∧
  (wf (tables db) → wf (tables db')) ∧
  (no_orphans (tables db) → no_orphans (tables db')).
Proof.
  unfold Delete_Idea. case_decide; [done|].
  issue_step. rewrite HT.
  assert (healthy db → healthy db0) as Hh' by (intros ?; by apply Hhealthy).
  destruct failed; simpl; [by rewrite HT|].
  split; [done|]. split.
  - intros Hwf. apply wf_ideas_within; [done|]. apply ideas_within_delete.
  - intros Hno. eapply no_orphans_within; [exact Hno| |done].
    apply ideas_within_delete.
Qed.

(** ** What each handler keeps *)

Lemma keeps_refl db : keeps db db.
Proof. unfold keeps. auto. Qed.

Lemma keeps_trans db1 db2 db3 : keeps db1 db2 → keeps db2 db3 → keeps db1 db3.
Proof. intros (?&?&?) (?&?&?). unfold keeps. auto 6. Qed.

Lemma keeps_same_tables db db' :
  tables db' = tables db → (healthy db → healthy db') → keeps db db'.
Proof. intros HT Hh. unfold keeps. rewrite HT. auto. Qed.

Lemma int_key k : 0 < k ≤ maxRowid → int k = k.
Proof.
  unfold int, maxRowid. intros Hk.
  destruct (Z.ltb_spec k (2 ^ 63)); lia.
Qed.

Lemma getBoxes_keeps db : keeps db (getBoxes db).2.
Proof.
  unfold getBoxes.
  destruct (Preload_Ideas_Find_inv None db) as [HT Hh].
  destruct (Preload_Ideas_Find None db) as [[[e|] l] db1];
    by apply keeps_same_tables.
Qed.

Lemma getBox_keeps id db : keeps db (getBox id db).2.
Proof.
  unfold getBox.
  destruct (Preload_Ideas_First_inv id zeroBox db) as [HT Hh].
  destruct (Preload_Ideas_First id zeroBox db) as [[[e|] l] db1];
    by apply keeps_same_tables.
Qed.

Lemma createBox_keeps body db : keeps db (createBox body db).2.
Proof.
  unfold createBox.
  destruct (ShouldBindJSON_Box body) as [e|request]; [apply keeps_refl|].
  match goal with |- context [Create_Box ?b db] =>
    destruct (Create_Box_inv b db) as (Hh & Hwf & Hno);
    destruct (Create_Box b db) as [[[e|] box] db1] end;
    unfold keeps; simpl in *; auto.
Qed.

Lemma updateBox_keeps id body db : keeps db (updateBox id body db).2.
Proof.
  unfold updateBox.
  destruct (ShouldBindJSON_Box body) as [e|request]; [apply keeps_refl|].
  destruct (First_Box id zeroBox db) as [[err box] db1] eqn:H1.
  destruct (First_Box_inv _ _ _ _ _ _ H1) as (HT & Hh & _).
  destruct err as [e|]; [by apply keeps_same_tables|].
  apply (keeps_trans _ db1); [by apply keeps_same_tables|].
  match goal with |- context [Model_Updates_Box ?b ?v db1] =>
    destruct (Model_Updates_Box_inv b v db1) as (Hh' & Hwf & Hno);
    destruct (Model_Updates_Box b v db1) as [[[e|] box'] db2] end;
    unfold keeps; simpl in *; auto.
Qed.

Lemma getBoxIdeas_keeps boxID db : keeps db (getBoxIdeas boxID db).2.
Proof.
  unfold getBoxIdeas.
  destruct (First_Box boxID zeroBox db) as [[err box] db1] eqn:H1.
  destruct (First_Box_inv _ _ _ _ _ _ H1) as (HT & Hh & _).
  destruct err as [e|]; [by apply keeps_same_tables|].
  apply (keeps_trans _ db1); [by apply keeps_same_tables|].
  destruct (Where_box_id_Find_inv boxID None db1) as [HT' Hh'].
  destruct (Where_box_id_Find boxID None db1) as [[[e|] l] db2];
    by apply keeps_same_tables.
Qed.

Lemma getBoxIdea_keeps boxID ideaID db :
  keeps db (getBoxIdea boxID ideaID db).2.
Proof.
  unfold getBoxIdea.
  destruct (First_Box boxID zeroBox db) as [[err box] db1] eqn:H1.
  destruct (First_Box_inv _ _ _ _ _ _ H1) as (HT & Hh & _).
  destruct err as [e|]; [by apply keeps_same_tables|].
  apply (keeps_trans _ db1); [by apply keeps_same_tables|].
  destruct (Where_id_box_id_First ideaID boxID zeroIdea db1)
    as [[err idea] db2] eqn:H2.
  destruct (Where_id_box_id_First_inv _ _ _ _ _ _ _ H2) as (HT' & Hh' & _).
  destruct err as [e|]; by apply keeps_same_tables.
Qed.

Lemma createBoxIdea_keeps boxID body db :
  keeps db (createBoxIdea boxID body db).2.
Proof.
  unfold createBoxIdea.
  destruct (ShouldBindJSON_Idea body) as [e|request]; [apply keeps_refl|].
  destruct (First_Box boxID zeroBox db) as [[err box] db1] eqn:H1.
  destruct (First_Box_inv _ _ _ _ _ _ H1) as (HT & Hh & Hfound).
  destruct err as [e|]; [by apply keeps_same_tables|].
  destruct Hfound as (k & r & -> & Hk & ->); [done|]. simpl.
  match goal with |- context [Create_Idea ?i db1] =>
    destruct (Create_Idea_inv i db1) as (Hh' & Hwf & Hno);
    destruct (Create_Idea i db1) as [[err idea] db2] end.
  simpl in *. rewrite HT in *.
  assert (keeps db db2) as Hkeeps.
  { split; [auto|]. split.
    - intros Hwf0. pose proof (wf_key_positive _ _ _ Hwf0 Hk) as Hpos.
      apply Hwf; [done|]. rewrite int_key by done.
      destruct Hwf0 as (Hb & _). by apply (Hb k r).
    - intros _ Hwf0 Hno0. pose proof (wf_key_positive _ _ _ Hwf0 Hk) as Hpos.
      apply Hno; [done|]. rewrite int_key by done. by exists r. }
  by destruct err.
Qed.

Lemma updateBoxIdea_keeps boxID ideaID body db :
  keeps db (updateBoxIdea boxID ideaID body db).2.
Proof.
  unfold updateBoxIdea.
  destruct (ShouldBindJSON_Idea body) as [e|request]; [apply keeps_refl|].
  destruct (First_Box boxID zeroBox db) as [[err box] db1] eqn:H1.
  destruct (First_Box_inv _ _ _ _ _ _ H1) as (HT & Hh & _).
  destruct err as [e|]; [by apply keeps_same_tables|].
  apply (keeps_trans _ db1); [by apply keeps_same_tables|].
  destruct (Where_id_box_id_First ideaID boxID zeroIdea db1)
    as [[err idea] db2] eqn:H2.
  destruct (Where_id_box_id_First_inv _ _ _ _ _ _ _ H2) as (HT' & Hh' & _).
  destruct err as [e|]; [by apply keeps_same_tables|].
  apply (keeps_trans _ db2); [by apply keeps_same_tables|].
  match goal with |- context [Model_Updates_Idea ?i ?v db2] =>
    destruct (Model_Updates_Idea_inv i v db2) as (Hh'' & Hwf & Hno);
    destruct (Model_Updates_Idea i v db2) as [[[e|] idea'] db3] end;
    unfold keeps; simpl in *; auto.
Qed.

Lemma deleteBoxIdea_keeps boxID ideaID db :
  keeps db (deleteBoxIdea boxID ideaID db).2.
Proof.
  unfold deleteBoxIdea.
  destruct (First_Box boxID zeroBox db) as [[err box] db1] eqn:H1.
  destruct (First_Box_inv _ _ _ _ _ _ H1) as (HT & Hh & _).
  destruct err as [e|]; [by apply keeps_same_tables|].
  apply (keeps_trans _ db1); [by apply keeps_same_tables|].
  destruct (Where_id_box_id_First ideaID boxID zeroIdea db1)
    as [[err idea] db2] eqn:H2.
  destruct (Where_id_box_id_First_inv _ _ _ _ _ _ _ H2) as (HT' & Hh' & _).
  destruct err as [e|]; [by apply keeps_same_tables|].
  apply (keeps_trans _ db2); [by apply keeps_same_tables|].
  destruct (Delete_Idea_inv idea db2) as (Hh'' & Hwf & Hno).
  destruct (Delete_Idea idea db2) as [[e|] db3]; unfold keeps; simpl in *; auto.
Qed.

(** After a delete whose calls succeed, no idea refers to the box. *)
Lemma deleteBox_found_no_orphans k r db :
  healthy db → k ≠ 0 → boxes (tables db) !! k = Some r →
  no_orphans (tables db) → no_orphans (tables (deleteBox (Some k) db).2).
Proof.
  intros Hh Hnz Hk Hno. rewrite (deleteBox_found k r) by done.
  intros i row. simpl. rewrite map_lookup_filter_Some. simpl.
  intros [Hi Hne]. rewrite lookup_delete_ne by done. by apply (Hno i row).
Qed.

Lemma deleteBox_keeps id db : keeps db (deleteBox id db).2.
Proof.
  split; [|split].
  - unfold deleteBox.
    destruct (First_Box id zeroBox db) as [[err box] db1] eqn:H1.
    destruct (First_Box_inv _ _ _ _ _ _ H1) as (HT & Hh & _).
    destruct err as [e|]; [done|].
    destruct (Where_box_id_Delete_inv id db1) as (Hh1 & _).
    destruct (Where_box_id_Delete id db1) as [e db2].
    destruct (Delete_Box_inv box db2) as (Hh2 & _).
    destruct (Delete_Box box db2) as [[e'|] db3]; simpl in *; auto.
  - unfold deleteBox.
    destruct (First_Box id zeroBox db) as [[err box] db1] eqn:H1.
    destruct (First_Box_inv _ _ _ _ _ _ H1) as (HT & Hh & _).
    destruct err as [e|]; [simpl; by rewrite HT|].
    destruct (Where_box_id_Delete_inv id db1) as (_ & Hwf1 & _).
    destruct (Where_box_id_Delete id db1) as [e db2].
    destruct (Delete_Box_inv box db2) as (_ & Hwf2).
    rewrite HT in Hwf1.
    destruct (Delete_Box box db2) as [[e'|] db3]; simpl in *; auto.
  - intros Hh Hwf Hno.
    destruct id as [k|];
      [destruct (boxes (tables db) !! k) as [r|] eqn:Hk|].
    + apply (deleteBox_found_no_orphans k r); try done.
      pose proof (wf_key_positive _ _ _ Hwf Hk). lia.
    + destruct (deleteBox_absent (Some k) db) as (db' & -> & HT & _);
        [done|]. simpl. by rewrite HT.
    + destruct (deleteBox_absent None db) as (db' & -> & HT & _);
        [done|]. simpl. by rewrite HT.
Qed.

Lemma handle_keeps rq db : keeps db (handle rq db).2.
Proof.
  destruct rq; simpl;
    auto using getBoxes_keeps, getBox_keeps, createBox_keeps,
      updateBox_keeps, deleteBox_keeps, getBoxIdeas_keeps, getBoxIdea_keeps,
      createBoxIdea_keeps, updateBoxIdea_keeps, deleteBoxIdea_keeps.
Qed.

Lemma serve_keeps rqs db : keeps db (serve rqs db).2.
Proof.
  revert db. induction rqs as [|rq rqs IH]; intros db; simpl.
  - apply keeps_refl.
  - pose proof (handle_keeps rq db) as H1.
    destruct (handle rq db) as [r db1]. pose proof (IH db1) as H2.
    destruct (serve rqs db1) as [rs db2]. simpl in *.
    by apply (keeps_trans _ db1).
Qed.

Lemma wf_empty_tables : wf empty_tables.
Proof.
  unfold wf, keys_ok, empty_tables, maxRowid. simpl.
  do 3 (split; [apply map_Forall_empty|]). lia.
Qed.

(** Whatever requests are served on a new database, and whichever
    storage calls fail, the tables are well formed. *)
Theorem reachable_wf (rqs : list Request) (faults : list bool) :
  wf (tables (serve rqs (mkDB empty_tables faults)).2).
Proof. apply serve_keeps, wf_empty_tables. Qed.

(** X16. When no storage call fails, every idea of the store refers to
    a box of the store, whatever requests were served on a new database:
    an idea is created under a box that was looked up first, and Delete
    of a box removes its ideas with it. *)
Theorem reachable_no_orphans (rqs : list Request) :
  no_orphans (tables (serve rqs (mkDB empty_tables [])).2).
Proof.
  apply serve_keeps; [done | apply wf_empty_tables |].
  apply map_Forall_empty.
Qed.

(** ** Ideas under a box *)

Lemma createBoxIdea_created k row title description db :
  healthy db → wf (tables db) → boxes (tables db) !! k = Some row →
  ideas_seq (tables db) < maxRowid → field title ≠ EmptyString →
  createBoxIdea (Some k) (Object title description) db
  = (JSON StatusCreated
       (JIdea (IdeaResponse.mk (ideas_seq (tables db) + 1) (field title)
                               (field description))),
     mkDB (mkTables
             (boxes (tables db))
             (<[ideas_seq (tables db) + 1 :=
                  IdeasRow (field title) (field description) k]>
                (ideas (tables db)))
             (boxes_seq (tables db)) (ideas_seq (tables db) + 1))
          []).
Proof.
  intros Hh Hwf Hk Hseq Ht.
  pose proof (wf_key_positive _ _ _ Hwf Hk) as Hpos.
  unfold createBoxIdea, ShouldBindJSON_Idea. simpl.
  case_decide; [done|].
  rewrite (First_Box_found k row) by done. simpl.
  rewrite int_key by done.
  destruct db as [T s]. unfold healthy in Hh. simpl in *. subst s.
  unfold Create_Idea, issue, ideaResponse. simpl.
  by destruct (Z.ltb_spec (ideas_seq T) maxRowid); [|lia].
Qed.

(** An idea created under a box is in the list that Get of the box
    shows right after. *)
Lemma createBoxIdea_then_getBox k row title description db :
  healthy db → wf (tables db) → boxes (tables db) !! k = Some row →
  ideas_seq (tables db) < maxRowid → field title ≠ EmptyString →
  ∃ l,
    getBox (Some k) (createBoxIdea (Some k) (Object title description) db).2
    = (JSON StatusOK
         (JBox (BoxResponse.mk k (boxes_title row) (boxes_description row)
                               (Some l))),
       (createBoxIdea (Some k) (Object title description) db).2) ∧
    IdeaResponse.mk (ideas_seq (tables db) + 1) (field title)
                    (field description) ∈ l.
Proof.
  intros Hh Hwf Hk Hseq Ht.
  rewrite (createBoxIdea_created k row) by done. simpl.
  eexists. split; [by apply getBox_found|].
  apply lists_ideas_of_where. simpl.
  exists (ideas_seq (tables db) + 1),
         (IdeasRow (field title) (field description) k).
  by rewrite lookup_insert_eq.
Qed.

Lemma Model_Updates_Idea_ok idea values r db :
  healthy db → Idea.ID idea ≠ 0 →
  IdeaRequest.Title values ≠ EmptyString →
  ideas (tables db) !! Idea.ID idea = Some r →
  Model_Updates_Idea idea values db
  = ((None,
      Idea.mk (Idea.ID idea) (IdeaRequest.Title values)
              (assign (IdeaRequest.Description values)
                      (Idea.Description idea))
              (Idea.BoxID idea)),
     mkDB (with_ideas (tables db)
             (<[Idea.ID idea :=
                  IdeasRow (IdeaRequest.Title values)
                           (assign (IdeaRequest.Description values)
                                   (ideas_description r))
                           (ideas_box_id r)]>
                (ideas (tables db))))
          (script db)).
Proof.
  intros Hh Hnz Ht Hk. unfold Model_Updates_Idea.
  case_decide as Hzero; [by destruct Hzero|].
  case_decide; [done|].
  rewrite issue_healthy by done.
  rewrite (alter_as_insert _ _ _ r) by done.
  by rewrite !(assign_non_empty (IdeaRequest.Title values)) by done.
Qed.

(** Update of an idea has the semantics of update of a box: the title is
    overwritten, the description only by one that is not empty. *)
Lemma updateBoxIdea_found b row i r body request db :
  healthy db → i ≠ 0 →
  boxes (tables db) !! b = Some row →
  ideas (tables db) !! i = Some r → ideas_box_id r = b →
  ShouldBindJSON_Idea body = inr request →
  updateBoxIdea (Some b) (Some i) body db
  = (JSON StatusOK
       (JIdea (IdeaResponse.mk i (IdeaRequest.Title request)
                 (assign (IdeaRequest.Description request)
                         (ideas_description r)))),
     mkDB (with_ideas (tables db)
             (<[i := IdeasRow (IdeaRequest.Title request)
                              (assign (IdeaRequest.Description request)
                                      (ideas_description r))
                              b]>
                (ideas (tables db))))
          (script db)).
Proof.
  intros Hh Hnz Hb Hi Hr Hbind. unfold updateBoxIdea. rewrite Hbind.
  destruct (ShouldBindJSON_Idea_ok _ _ Hbind) as [Ht _].
  rewrite (First_Box_found b row) by done.
  unfold Where_id_box_id_First. rewrite issue_healthy by done.
  rewrite (ideas_where_id_box_id_Some _ i b r) by done.
  destruct request as [title description]; simpl in *.
  rewrite (Model_Updates_Idea_ok _ _ r) by done. simpl.
  by rewrite Hr.
Qed.

(** The example of the specification: a box is created, an idea is
    created under it, and Get of the box shows the idea. *)
Example travel_scenario :
  (serve [POST_boxes (Object (Some "Travel") None);
          POST_ideas (Some 1) (Object (Some "Visit Kyoto") None);
          GET_box (Some 1)]
         (mkDB empty_tables [])).1
  = [JSON StatusCreated
       (JBox (BoxResponse.mk 1 "Travel" EmptyString (Some [])));
     JSON StatusCreated
       (JIdea (IdeaResponse.mk 1 "Visit Kyoto" EmptyString));
     JSON StatusOK
       (JBox (BoxResponse.mk 1 "Travel" EmptyString
                (Some [IdeaResponse.mk 1 "Visit Kyoto" EmptyString])))].
Proof. vm_compute. reflexivity. Qed.

(** * The other handlers *)

(** ** The scoped lookup of an idea *)

Lemma Where_id_box_id_First_found i b r idea db :
  healthy db → ideas (tables db) !! i = Some r → ideas_box_id r = b →
  Where_id_box_id_First (Some i) (Some b) idea db
  = ((None, scan_idea (i, r)), db).
Proof.
  intros Hh Hi Hb. unfold Where_id_box_id_First.
  rewrite issue_healthy by done.
  by rewrite (ideas_where_id_box_id_Some _ i b r).
Qed.

Lemma Where_id_box_id_First_none ideaID b idea db :
  healthy db →
  (∀ i r, ideaID = Some i → ideas (tables db) !! i = Some r →
          ideas_box_id r ≠ b) →
  Where_id_box_id_First ideaID (Some b) idea db
  = ((Some ErrRecordNotFound, idea), db).
Proof.
  intros Hh Hnone. unfold Where_id_box_id_First.
  rewrite issue_healthy by done.
  destruct ideaID as [i|]; [|done].
  by rewrite ideas_where_id_box_id_None.
Qed.

Lemma First_Box_fails id box db rest :
  script db = true :: rest →
  First_Box id box db = ((Some ErrStorage, box), mkDB (tables db) rest).
Proof. intros Hs. unfold First_Box. by rewrite (issue_script _ _ _ Hs). Qed.

(** ** Listing the ideas of a box *)

Lemma getBoxIdeas_found k row db :
  healthy db → boxes (tables db) !! k = Some row →
  getBoxIdeas (Some k) db
  = (JSON StatusOK
       (JIdeas (Some (ideaResponse <$> ideas_where_box_id (tables db) k))),
     db).
Proof.
  intros Hh Hk. unfold getBoxIdeas.
  rewrite (First_Box_found k row) by done.
  unfold Where_box_id_Find. rewrite issue_healthy by done.
  by rewrite ideaResponses_fmap.
Qed.

Lemma getBoxIdeas_no_box boxID db :
  box_absent (tables db) boxID →
  ∃ db', getBoxIdeas boxID db = (box_not_found, db') ∧
         tables db' = tables db.
Proof.
  intros Habs. unfold getBoxIdeas.
  destruct (First_Box_absent boxID zeroBox db Habs)
    as (e & db' & -> & HT & _).
  by exists db'.
Qed.

(** X1. For a box of the store, when the storage calls succeed, the list
    of its ideas is answered 200 with exactly the stored ideas whose
    BoxID is the ID of the box, each once, as a list that is never null;
    the database is left as it is. *)
Theorem getBoxIdeas_lists_ideas (k : Z) (row : boxes_row) (db : DB) :
  healthy db → boxes (tables db) !! k = Some row →
  ∃ l, getBoxIdeas (Some k) db = (JSON StatusOK (JIdeas (Some l)), db) ∧
       lists_ideas_of (tables db) k l.
Proof.
  intros Hh Hk.
  exists (ideaResponse <$> ideas_where_box_id (tables db) k).
  split; [by apply (getBoxIdeas_found k row) | apply lists_ideas_of_where].
Qed.

Lemma getBoxIdeas_lists_ideas_witness :
  ∃ l, getBoxIdeas (Some 1) two_boxes
       = (JSON StatusOK (JIdeas (Some l)), two_boxes) ∧
       lists_ideas_of (tables two_boxes) 1 l.
Proof.
  apply (getBoxIdeas_lists_ideas 1 (BoxesRow "A" EmptyString) two_boxes);
    reflexivity.
Defined.

(** X2. For a box of the store, when the storage calls succeed, the list
    of the ideas of the box and the Ideas list that Get of the box shows
    hold the same entries: one is a rearrangement of the other. *)
Theorem getBoxIdeas_agrees_with_getBox (k : Z) (row : boxes_row) (db : DB) :
  healthy db → boxes (tables db) !! k = Some row →
  ∃ shown listed,
    getBox (Some k) db
    = (JSON StatusOK
         (JBox (BoxResponse.mk k (boxes_title row) (boxes_description row)
                               (Some shown))), db) ∧
    getBoxIdeas (Some k) db = (JSON StatusOK (JIdeas (Some listed)), db) ∧
    shown ≡ₚ listed.
Proof.
  intros Hh Hk.
  rewrite (getBoxIdeas_found k row), (getBox_found k row) by done.
  by eexists _, _.
Qed.

Lemma getBoxIdeas_agrees_with_getBox_witness :
  ∃ shown listed,
    getBox (Some 1) two_boxes
    = (JSON StatusOK (JBox (BoxResponse.mk 1 "A" EmptyString (Some shown))),
       two_boxes) ∧
    getBoxIdeas (Some 1) two_boxes
    = (JSON StatusOK (JIdeas (Some listed)), two_boxes) ∧
    shown ≡ₚ listed.
Proof.
  apply (getBoxIdeas_agrees_with_getBox 1 (BoxesRow "A" EmptyString)
           two_boxes); reflexivity.
Defined.

(** ** Deleting an idea *)

Lemma deleteBoxIdea_found b row i r db :
  healthy db → i ≠ 0 →
  boxes (tables db) !! b = Some row →
  ideas (tables db) !! i = Some r → ideas_box_id r = b →
  deleteBoxIdea (Some b) (Some i) db
  = (JSON StatusNoContent H_empty,
     mkDB (with_ideas (tables db) (delete i (ideas (tables db)))) (script db)).
Proof.
  intros Hh Hnz Hb Hi Hr. unfold deleteBoxIdea.
  rewrite (First_Box_found b row) by done.
  rewrite (Where_id_box_id_First_found i b r) by done.
  unfold Delete_Idea. simpl. case_decide; [done|].
  by rewrite issue_healthy.
Qed.

Lemma deleteBoxIdea_no_idea b row ideaID db :
  healthy db → boxes (tables db) !! b = Some row →
  (∀ i r, ideaID = Some i → ideas (tables db) !! i = Some r →
          ideas_box_id r ≠ b) →
  deleteBoxIdea (Some b) ideaID db = (idea_not_found, db).
Proof.
  intros Hh Hb Hnone. unfold deleteBoxIdea.
  rewrite (First_Box_found b row) by done.
  by rewrite Where_id_box_id_First_none.
Qed.

Lemma wf_idea_key_positive T i r : wf T → ideas T !! i = Some r → 0 < i.
Proof.
  intros (_ & Hi & _) Hir. specialize (Hi i r Hir). simpl in Hi. lia.
Qed.

(** X3. Delete of an idea of the store through its own box, when the
    storage calls succeed, is answered 204 and removes that idea and no
    other row; after it, Get of the idea is answered 404 with the
    message of the missing idea, and so is a second Delete, which
    changes nothing. *)
Theorem deleteBoxIdea_deletes
  (b i : Z) (row : boxes_row) (r : ideas_row) (db : DB) :
  healthy db → wf (tables db) →
  boxes (tables db) !! b = Some row →
  ideas (tables db) !! i = Some r → ideas_box_id r = b →
  let db' := (deleteBoxIdea (Some b) (Some i) db).2 in
  (deleteBoxIdea (Some b) (Some i) db).1 = JSON StatusNoContent H_empty ∧
  ideas (tables db') = delete i (ideas (tables db)) ∧
  boxes (tables db') = boxes (tables db) ∧
  getBoxIdea (Some b) (Some i) db'
    = (JSON StatusNotFound (H_error (Literal "idea not found")), db') ∧
  deleteBoxIdea (Some b) (Some i) db'
    = (JSON StatusNotFound (H_error (Literal "idea not found")), db').
Proof.
  intros Hh Hwf Hb Hi Hr. simpl.
  pose proof (wf_idea_key_positive _ _ _ Hwf Hi) as Hpos.
  rewrite (deleteBoxIdea_found b row i r) by (done || lia). simpl.
  do 3 (split; [done|]).
  assert (∀ i' r', Some i = Some i' →
            delete i (ideas (tables db)) !! i' = Some r' →
            ideas_box_id r' ≠ b) as Hgone.
  { intros i' r' [= <-]. by rewrite lookup_delete_eq. }
  split.
  - by apply (getBoxIdea_no_idea b row).
  - by apply (deleteBoxIdea_no_idea b row).
Qed.

Lemma deleteBoxIdea_deletes_witness :
  (deleteBoxIdea (Some 1) (Some 1) two_boxes).1
    = JSON StatusNoContent H_empty ∧
  ideas (tables (deleteBoxIdea (Some 1) (Some 1) two_boxes).2)
    = delete 1 (ideas (tables two_boxes)).
Proof.
  destruct (deleteBoxIdea_deletes 1 1 (BoxesRow "A" EmptyString)
              (IdeasRow "I1" EmptyString 1) two_boxes)
    as (H1 & H2 & _);
    [reflexivity | apply (bool_decide_unpack _); by vm_compute
    | reflexivity | reflexivity | reflexivity |].
  split; [exact H1 | exact H2].
Defined.

Lemma deleteBoxIdea_no_box boxID ideaID db :
  box_absent (tables db) boxID →
  ∃ db', deleteBoxIdea boxID ideaID db = (box_not_found, db') ∧
         tables db' = tables db.
Proof.
  intros Habs. unfold deleteBoxIdea.
  destruct (First_Box_absent boxID zeroBox db Habs)
    as (e & db' & -> & HT & _).
  by exists db'.
Qed.

(** X4. An idea is deleted through its own box only.  Delete of an idea
    under a box that is not in the store is answered 404 with the message
    of the missing box, and leaves the tables as they are.  Under a box
    of the store, Delete of an idea of another box, or of an idea that
    is not in the store, is answered 404 with the message of the missing
    idea and leaves the database as it is. *)
Theorem deleteBoxIdea_scoped (boxID ideaID : Param) (db : DB) :
  (box_absent (tables db) boxID →
     (deleteBoxIdea boxID ideaID db).1
       = JSON StatusNotFound (H_error (Literal "box not found")) ∧
     tables (deleteBoxIdea boxID ideaID db).2 = tables db) ∧
  (∀ b row,
     healthy db → boxID = Some b → boxes (tables db) !! b = Some row →
     (∀ i r, ideaID = Some i → ideas (tables db) !! i = Some r →
             ideas_box_id r ≠ b) →
     deleteBoxIdea boxID ideaID db
     = (JSON StatusNotFound (H_error (Literal "idea not found")), db)).
Proof.
  split.
  - intros Habs.
    by destruct (deleteBoxIdea_no_box boxID ideaID db Habs)
      as (db' & -> & HT).
  - intros b row Hh -> Hb Hnone. by apply (deleteBoxIdea_no_idea b row).
Qed.

Lemma deleteBoxIdea_scoped_witness :
  deleteBoxIdea (Some 2) (Some 1) two_boxes
  = (JSON StatusNotFound (H_error (Literal "idea not found")), two_boxes).
Proof.
  destruct (deleteBoxIdea_scoped (Some 2) (Some 1) two_boxes) as [_ H].
  apply (H 2 (BoxesRow "B" EmptyString)); try reflexivity.
  intros i r [= <-]. vm_compute. intros [= <-]. simpl. lia.
Defined.

(** ** Updating an idea *)

Lemma updateBoxIdea_no_idea b row ideaID body request db :
  healthy db → boxes (tables db) !! b = Some row →
  ShouldBindJSON_Idea body = inr request →
  (∀ i r, ideaID = Some i → ideas (tables db) !! i = Some r →
          ideas_box_id r ≠ b) →
  updateBoxIdea (Some b) ideaID body db = (idea_not_found, db).
Proof.
  intros Hh Hb Hbind Hnone. unfold updateBoxIdea. rewrite Hbind.
  rewrite (First_Box_found b row) by done.
  by rewrite Where_id_box_id_First_none.
Qed.

(** X5. For an idea of the store reached through its own box and a
    request that passes validation, when the storage calls succeed,
    Update of the idea is answered 200, overwrites the stored title,
    overwrites the stored description only by one that is not empty, and
    keeps the idea under its box; no other row changes and the answer
    carries the stored values. *)
Theorem updateBoxIdea_overwrites_non_empty
  (b i : Z) (row : boxes_row) (r : ideas_row) (body : Body)
  (request : IdeaRequest.t) (db : DB) :
  healthy db → wf (tables db) →
  boxes (tables db) !! b = Some row →
  ideas (tables db) !! i = Some r → ideas_box_id r = b →
  ShouldBindJSON_Idea body = inr request →
  let description :=
    if decide (IdeaRequest.Description request = EmptyString)
    then ideas_description r else IdeaRequest.Description request in
  let db' := (updateBoxIdea (Some b) (Some i) body db).2 in
  (updateBoxIdea (Some b) (Some i) body db).1
    = JSON StatusOK
        (JIdea (IdeaResponse.mk i (IdeaRequest.Title request) description)) ∧
  ideas (tables db') !! i
    = Some (IdeasRow (IdeaRequest.Title request) description b) ∧
  (∀ j, j ≠ i → ideas (tables db') !! j = ideas (tables db) !! j) ∧
  boxes (tables db') = boxes (tables db).
Proof.
  intros Hh Hwf Hb Hi Hr Hbind. simpl.
  pose proof (wf_idea_key_positive _ _ _ Hwf Hi) as Hpos.
  rewrite (updateBoxIdea_found b row i r body request) by (done || lia).
  simpl.
  fold (assign (IdeaRequest.Description request) (ideas_description r)).
  split; [done|]. split; [by rewrite lookup_insert_eq|].
  split; [|done]. intros j Hj. by rewrite lookup_insert_ne.
Qed.

Lemma updateBoxIdea_overwrites_non_empty_witness :
  ideas (tables
    (updateBoxIdea (Some 1) (Some 1) (Object (Some "I2") None) two_boxes).2)
    !! 1
  = Some (IdeasRow "I2" EmptyString 1).
Proof.
  apply (updateBoxIdea_overwrites_non_empty
           1 1 (BoxesRow "A" EmptyString) (IdeasRow "I1" EmptyString 1)
           (Object (Some "I2") None) (IdeaRequest.mk "I2" EmptyString)
           two_boxes);
    [reflexivity | apply (bool_decide_unpack _); by vm_compute
    | reflexivity | reflexivity | reflexivity | reflexivity].
Defined.

(** X6. An idea is updated through its own box only.  With a body that
    passes validation, Update of an idea under a box that is not in the
    store is answered 404 with the message of the missing box, and
    leaves the tables as they are.  Under a box of the store, Update of
    an idea of another box, or of an idea that is not in the store, is
    answered 404 with the message of the missing idea and leaves the
    database as it is. *)
Theorem updateBoxIdea_scoped
  (boxID ideaID : Param) (body : Body) (request : IdeaRequest.t) (db : DB) :
  ShouldBindJSON_Idea body = inr request →
  (box_absent (tables db) boxID →
     (updateBoxIdea boxID ideaID body db).1
       = JSON StatusNotFound (H_error (Literal "box not found")) ∧
     tables (updateBoxIdea boxID ideaID body db).2 = tables db) ∧
  (∀ b row,
     healthy db → boxID = Some b → boxes (tables db) !! b = Some row →
     (∀ i r, ideaID = Some i → ideas (tables db) !! i = Some r →
             ideas_box_id r ≠ b) →
     updateBoxIdea boxID ideaID body db
     = (JSON StatusNotFound (H_error (Literal "idea not found")), db)).
Proof.
  intros Hbind. split.
  - intros Habs.
    by destruct (updateBoxIdea_no_box boxID ideaID body request db Hbind Habs)
      as (db' & -> & HT).
  - intros b row Hh -> Hb Hnone.
    by apply (updateBoxIdea_no_idea b row _ _ request).
Qed.

Lemma updateBoxIdea_scoped_witness :
  updateBoxIdea (Some 2) (Some 1) (Object (Some "stolen") None) two_boxes
  = (JSON StatusNotFound (H_error (Literal "idea not found")), two_boxes).
Proof.
  destruct (updateBoxIdea_scoped (Some 2) (Some 1)
              (Object (Some "stolen") None)
              (IdeaRequest.mk "stolen" EmptyString) two_boxes) as [_ H];
    [reflexivity|].
  apply (H 2 (BoxesRow "B" EmptyString)); try reflexivity.
  intros i r [= <-]. vm_compute. intros [= <-]. simpl. lia.
Defined.

(** ** Creating an idea *)

(** X7. For a box of the store and a body whose title is not empty, when
    the storage calls succeed, Create-Idea is answered 201 with an ID no
    idea had, the title and the description of the request; the idea is
    stored under the box, no other row changes, and Get of the new idea
    under the box right after is answered 200 with the same
    representation. *)
Theorem createBoxIdea_round_trip
  (k : Z) (row : boxes_row) (title description : option string) (db : DB) :
  healthy db → wf (tables db) → boxes (tables db) !! k = Some row →
  ideas_seq (tables db) < maxRowid → field title ≠ EmptyString →
  ∃ id,
    let created := JIdea (IdeaResponse.mk id (field title) (field description))
    in
    let db' := (createBoxIdea (Some k) (Object title description) db).2 in
    (createBoxIdea (Some k) (Object title description) db).1
      = JSON StatusCreated created ∧
    ideas (tables db) !! id = None ∧
    ideas (tables db')
      = <[id := IdeasRow (field title) (field description) k]>
          (ideas (tables db)) ∧
    boxes (tables db') = boxes (tables db) ∧
    getBoxIdea (Some k) (Some id) db' = (JSON StatusOK created, db').
Proof.
  intros Hh Hwf Hk Hseq Ht. exists (ideas_seq (tables db) + 1). simpl.
  rewrite (createBoxIdea_created k row) by done. simpl.
  split; [done|]. split.
  { destruct Hwf as (_ & Hi & _).
    destruct (ideas (tables db) !! (ideas_seq (tables db) + 1))
      as [r|] eqn:Hr; [|done].
    specialize (Hi _ _ Hr). simpl in Hi. lia. }
  do 2 (split; [done|]).
  rewrite (getBoxIdea_found k row _
             (IdeasRow (field title) (field description) k));
    [done | done | done | by apply lookup_insert_eq | done].
Qed.

Lemma createBoxIdea_round_trip_witness :
  ∃ id,
    (createBoxIdea (Some 2) (Object (Some "I2") (Some "d")) two_boxes).1
      = JSON StatusCreated (JIdea (IdeaResponse.mk id "I2" "d")) ∧
    getBoxIdea (Some 2) (Some id)
      (createBoxIdea (Some 2) (Object (Some "I2") (Some "d")) two_boxes).2
    = (JSON StatusOK (JIdea (IdeaResponse.mk id "I2" "d")),
       (createBoxIdea (Some 2) (Object (Some "I2") (Some "d")) two_boxes).2).
Proof.
  destruct (createBoxIdea_round_trip 2 (BoxesRow "B" EmptyString)
              (Some "I2") (Some "d") two_boxes)
    as (id & H1 & _ & _ & _ & H2);
    [reflexivity | apply (bool_decide_unpack _); by vm_compute
    | reflexivity | reflexivity | discriminate |].
  exists id. split; [exact H1 | exact H2].
Defined.

(** ** More on updating a box *)

Lemma updateBox_no_box id body request db :
  ShouldBindJSON_Box body = inr request →
  box_absent (tables db) id →
  ∃ db', updateBox id body db = (box_not_found, db') ∧
         tables db' = tables db.
Proof.
  intros Hbind Habs. unfold updateBox. rewrite Hbind.
  destruct (First_Box_absent id zeroBox db Habs) as (e & db' & -> & HT & _).
  by exists db'.
Qed.

Lemma assign_assign new old : assign new (assign new old) = assign new old.
Proof. unfold assign. by case_decide. Qed.

(** X8. Update of a box rejects before it writes.  A body that does not
    bind is answered 400 with the binding error, whatever the box, and
    the storage engine is not consulted; a body that binds, for a box
    that is not in the store, is answered 404 with the message of the
    missing box, and the tables are left as they are. *)
Theorem updateBox_rejects (id : Param) (body : Body) (db : DB) :
  (∀ e, ShouldBindJSON_Box body = inl e →
        updateBox id body db
        = (JSON StatusBadRequest (H_error (ErrorOf e)), db)) ∧
  (∀ request, ShouldBindJSON_Box body = inr request →
     box_absent (tables db) id →
     (updateBox id body db).1
       = JSON StatusNotFound (H_error (Literal "box not found")) ∧
     tables (updateBox id body db).2 = tables db).
Proof.
  split.
  - intros e Hbind. unfold updateBox. by rewrite Hbind.
  - intros request Hbind Habs.
    by destruct (updateBox_no_box id body request db Hbind Habs)
      as (db' & -> & HT).
Qed.

Lemma updateBox_rejects_witness :
  updateBox (Some 1) (Object (Some EmptyString) (Some "d")) two_boxes
    = (JSON StatusBadRequest (H_error (ErrorOf ErrBinding)), two_boxes) ∧
  (updateBox (Some 3) (Object (Some "C") None) two_boxes).1
    = JSON StatusNotFound (H_error (Literal "box not found")).
Proof.
  split.
  - apply (updateBox_rejects (Some 1) (Object (Some EmptyString) (Some "d"))
             two_boxes). reflexivity.
  - apply (updateBox_rejects (Some 3) (Object (Some "C") None) two_boxes
             ) with (request := BoxRequest.mk "C" EmptyString); reflexivity.
Defined.

(** X9. Update of a box is idempotent: for a box of the store and a body
    that binds, when the storage calls succeed, the same request served
    a second time gets the same answer and leaves the database as the
    first left it. *)
Theorem updateBox_idempotent
  (k : Z) (row : boxes_row) (body : Body) (request : BoxRequest.t) (db : DB) :
  healthy db → wf (tables db) → boxes (tables db) !! k = Some row →
  ShouldBindJSON_Box body = inr request →
  updateBox (Some k) body (updateBox (Some k) body db).2
  = updateBox (Some k) body db.
Proof.
  intros Hh Hwf Hk Hbind.
  assert (k ≠ 0) as Hnz by (pose proof (wf_key_positive _ _ _ Hwf Hk); lia).
  rewrite (updateBox_found k row body request db) by done. simpl.
  set (row' := BoxesRow (BoxRequest.Title request)
                 (assign (BoxRequest.Description request)
                         (boxes_description row))).
  rewrite (updateBox_found k row' body request);
    [|done|done|by apply lookup_insert_eq|done].
  unfold with_boxes. simpl. rewrite assign_assign, insert_insert_eq.
  done.
Qed.

Lemma updateBox_idempotent_witness :
  updateBox (Some 1) (Object (Some "A2") (Some "d"))
    (updateBox (Some 1) (Object (Some "A2") (Some "d")) two_boxes).2
  = updateBox (Some 1) (Object (Some "A2") (Some "d")) two_boxes.
Proof.
  apply (updateBox_idempotent 1 (BoxesRow "A" EmptyString)
           (Object (Some "A2") (Some "d")) (BoxRequest.mk "A2" "d")
           two_boxes);
    [reflexivity | apply (bool_decide_unpack _); by vm_compute
    | reflexivity | reflexivity].
Defined.

(** X10. Update of a box does not touch its ideas, although its answer
    shows an empty Ideas list: for a box of the store and a body that
    binds, when the storage calls succeed, the answer to Update has
    Ideas = [], and Get of the box right after shows the values the
    update stored together with the ideas the box had before. *)
Theorem updateBox_then_getBox
  (k : Z) (row : boxes_row) (body : Body) (request : BoxRequest.t) (db : DB) :
  healthy db → wf (tables db) → boxes (tables db) !! k = Some row →
  ShouldBindJSON_Box body = inr request →
  let db' := (updateBox (Some k) body db).2 in
  ∃ description l,
    (updateBox (Some k) body db).1
      = JSON StatusOK
          (JBox (BoxResponse.mk k (BoxRequest.Title request) description
                                (Some []))) ∧
    getBox (Some k) db'
      = (JSON StatusOK
           (JBox (BoxResponse.mk k (BoxRequest.Title request) description
                                 (Some l))), db') ∧
    lists_ideas_of (tables db) k l.
Proof.
  intros Hh Hwf Hk Hbind. simpl.
  assert (k ≠ 0) as Hnz by (pose proof (wf_key_positive _ _ _ Hwf Hk); lia).
  rewrite (updateBox_found k row body request db) by done. simpl.
  eexists _, _. split; [done|]. split.
  - rewrite (getBox_found k (BoxesRow (BoxRequest.Title request)
               (assign (BoxRequest.Description request)
                       (boxes_description row))));
      [done | done | by apply lookup_insert_eq].
  - apply (lists_ideas_of_where (tables db) k).
Qed.

Lemma updateBox_then_getBox_witness :
  ∃ description l,
    (updateBox (Some 1) (Object (Some "A2") None) two_boxes).1
      = JSON StatusOK (JBox (BoxResponse.mk 1 "A2" description (Some []))) ∧
    getBox (Some 1) (updateBox (Some 1) (Object (Some "A2") None) two_boxes).2
      = (JSON StatusOK (JBox (BoxResponse.mk 1 "A2" description (Some l))),
         (updateBox (Some 1) (Object (Some "A2") None) two_boxes).2) ∧
    lists_ideas_of (tables two_boxes) 1 l.
Proof.
  apply (updateBox_then_getBox 1 (BoxesRow "A" EmptyString)
           (Object (Some "A2") None) (BoxRequest.mk "A2" EmptyString)
           two_boxes);
    [reflexivity | apply (bool_decide_unpack _); by vm_compute
    | reflexivity | reflexivity].
Defined.

(** * All routes *)

Lemma Preload_Ideas_First_fails id box db rest :
  script db = true :: rest →
  Preload_Ideas_First id box db
  = ((Some ErrStorage, box), mkDB (tables db) rest).
Proof.
  intros Hs. unfold Preload_Ideas_First. by rewrite (issue_script _ _ _ Hs).
Qed.

Lemma getBoxes_tables db : tables (getBoxes db).2 = tables db.
Proof.
  unfold getBoxes.
  destruct (Preload_Ideas_Find_inv None db) as [HT _].
  by destruct (Preload_Ideas_Find None db) as [[[e|] l] db1].
Qed.

Lemma getBox_tables id db : tables (getBox id db).2 = tables db.
Proof.
  unfold getBox.
  destruct (Preload_Ideas_First_inv id zeroBox db) as [HT _].
  by destruct (Preload_Ideas_First id zeroBox db) as [[[e|] l] db1].
Qed.

Lemma getBoxIdeas_tables boxID db :
  tables (getBoxIdeas boxID db).2 = tables db.
Proof.
  unfold getBoxIdeas.
  destruct (First_Box boxID zeroBox db) as [[err box] db1] eqn:H1.
  destruct (First_Box_inv _ _ _ _ _ _ H1) as (HT & _).
  destruct err as [e|]; [done|].
  destruct (Where_box_id_Find_inv boxID None db1) as [HT' _].
  destruct (Where_box_id_Find boxID None db1) as [[[e|] l] db2];
    simpl in *; congruence.
Qed.

Lemma getBoxIdea_tables boxID ideaID db :
  tables (getBoxIdea boxID ideaID db).2 = tables db.
Proof.
  unfold getBoxIdea.
  destruct (First_Box boxID zeroBox db) as [[err box] db1] eqn:H1.
  destruct (First_Box_inv _ _ _ _ _ _ H1) as (HT & _).
  destruct err as [e|]; [done|].
  destruct (Where_id_box_id_First ideaID boxID zeroIdea db1)
    as [[err idea] db2] eqn:H2.
  destruct (Where_id_box_id_First_inv _ _ _ _ _ _ _ H2) as (HT' & _).
  destruct err as [e|]; simpl in *; congruence.
Qed.

(** X11. The four GET routes never write: whatever the request and
    whichever storage calls fail, the tables after the request are the
    tables before it. *)
Theorem reads_change_nothing (rq : Request) (db : DB) :
  is_read rq = true → tables (handle rq db).2 = tables db.
Proof.
  destruct rq; simpl; try discriminate; intros _.
  - apply getBoxes_tables.
  - apply getBox_tables.
  - apply getBoxIdeas_tables.
  - apply getBoxIdea_tables.
Qed.

Lemma reads_change_nothing_witness :
  tables (handle (GET_idea (Some 1) (Some 1))
            (mkDB (tables two_boxes) [false; true])).2
  = tables two_boxes.
Proof.
  apply (reads_change_nothing (GET_idea (Some 1) (Some 1))
           (mkDB (tables two_boxes) [false; true])).
  reflexivity.
Defined.

(** X12. Every route answers with one of the status codes of its
    handler, whatever the request, the store and the outcome of the
    storage calls: Get of a box and Get of an idea never answer 400, the
    two creates never answer 200, and no route answers a code outside
    200, 201, 204, 400 and 404. *)
Theorem status_of_route (rq : Request) (db : DB) :
  status (handle rq db).1 ∈ statuses rq.
Proof.
  destruct rq; simpl;
    unfold getBoxes, getBox, createBox, updateBox, deleteBox, getBoxIdeas,
      getBoxIdea, createBoxIdea, updateBoxIdea, deleteBoxIdea;
    repeat case_match; simpl; set_solver.
Qed.

(** X13. Every route under a box answers 404 with the message of the
    missing box when the box is not in the store and the body, if the
    route takes one, binds; the tables are left as they are, whichever
    storage calls fail. *)
Theorem missing_box_404 (rq : Request) (id : Param) (db : DB) :
  box_of rq = Some id → body_binds rq → box_absent (tables db) id →
  (handle rq db).1
    = JSON StatusNotFound (H_error (Literal "box not found")) ∧
  tables (handle rq db).2 = tables db.
Proof.
  intros Hrq Hbind Habs.
  destruct rq; simpl in *; try discriminate;
    injection Hrq as ->;
    try match type of Hbind with ex _ => destruct Hbind as [request Hbind] end.
  - split; [by apply getBox_no_box | apply getBox_tables].
  - by destruct (updateBox_no_box _ _ _ _ Hbind Habs) as (db' & -> & HT).
  - by destruct (deleteBox_absent _ _ Habs) as (db' & -> & HT & _).
  - by destruct (getBoxIdeas_no_box _ _ Habs) as (db' & -> & HT).
  - split; [by apply getBoxIdea_no_box | apply getBoxIdea_tables].
  - by destruct (createBoxIdea_no_box _ _ _ _ Hbind Habs) as (db' & -> & HT).
  - by destruct (updateBoxIdea_no_box _ ideaId _ _ _ Hbind Habs)
      as (db' & -> & HT).
  - by destruct (deleteBoxIdea_no_box _ ideaId _ Habs) as (db' & -> & HT).
Qed.

Lemma missing_box_404_witness :
  (handle (PUT_idea (Some 3) (Some 1) (Object (Some "t") None)) two_boxes).1
  = JSON StatusNotFound (H_error (Literal "box not found")).
Proof.
  apply (missing_box_404
           (PUT_idea (Some 3) (Some 1) (Object (Some "t") None)) (Some 3)
           two_boxes);
    [reflexivity | by exists (IdeaRequest.mk "t" EmptyString) | reflexivity].
Defined.

(** X14. A storage error on the lookup of the box is answered as a
    missing box.  On every route under a box, when the first storage
    call fails and the body, if the route takes one, binds, the answer
    is 404 with the message of the missing box, also for a box that is
    in the store; no further storage call is made and the tables are
    left as they are. *)
Theorem box_lookup_error_is_404
  (rq : Request) (id : Param) (db : DB) (rest : list bool) :
  box_of rq = Some id → body_binds rq → script db = true :: rest →
  handle rq db
  = (JSON StatusNotFound (H_error (Literal "box not found")),
     mkDB (tables db) rest).
Proof.
  intros Hrq Hbind Hs.
  destruct rq; simpl in *; try discriminate;
    injection Hrq as ->;
    try match type of Hbind with ex _ => destruct Hbind as [request Hbind] end;
    unfold getBox, updateBox, deleteBox, getBoxIdeas, getBoxIdea,
      createBoxIdea, updateBoxIdea, deleteBoxIdea;
    rewrite ?Hbind, ?(First_Box_fails _ _ _ _ Hs),
      ?(Preload_Ideas_First_fails _ _ _ _ Hs); done.
Qed.

Lemma box_lookup_error_is_404_witness :
  handle (GET_box (Some 1)) (mkDB (tables two_boxes) [true])
  = (JSON StatusNotFound (H_error (Literal "box not found")),
     mkDB (tables two_boxes) []).
Proof.
  apply (box_lookup_error_is_404 (GET_box (Some 1)) (Some 1)
           (mkDB (tables two_boxes) [true]) []); reflexivity.
Defined.

(** ** Titles are never empty *)

Lemma assign_keeps_non_empty new old :
  old ≠ EmptyString → assign new old ≠ EmptyString.
Proof. unfold assign. by case_decide. Qed.

Lemma titled_same_tables T T' : T' = T → titled T → titled T'.
Proof. by intros ->. Qed.

Lemma Create_Box_titled box db :
  Box.Title box ≠ EmptyString →
  titled (tables db) → titled (tables (Create_Box box db).2).
Proof.
  intros Ht [Hb Hi]. unfold Create_Box. issue_step. rewrite HT.
  destruct failed; simpl; [by rewrite HT|].
  case_match; simpl; [|by rewrite HT].
  split; [|done]. simpl. by apply map_Forall_insert_2.
Qed.

Lemma Create_Idea_titled idea db :
  Idea.Title idea ≠ EmptyString →
  titled (tables db) → titled (tables (Create_Idea idea db).2).
Proof.
  intros Ht [Hb Hi]. unfold Create_Idea. issue_step. rewrite HT.
  destruct failed; simpl; [by rewrite HT|].
  case_match; simpl; [|by rewrite HT].
  split; [done|]. simpl. by apply map_Forall_insert_2.
Qed.

Lemma Model_Updates_Box_titled box values db :
  titled (tables db) → titled (tables (Model_Updates_Box box values db).2).
Proof.
  intros [Hb Hi]. unfold Model_Updates_Box. do 2 (case_decide; [done|]).
  issue_step. rewrite HT. destruct failed; simpl; [by rewrite HT|].
  split; [|done]. simpl. intros k r Hk.
  apply lookup_alter_Some in Hk as [(_ & r0 & Hr0 & ->)|[_ Hk]].
  - simpl. apply assign_keeps_non_empty. by apply (Hb k r0).
  - by apply (Hb k r).
Qed.

Lemma Model_Updates_Idea_titled idea values db :
  titled (tables db) → titled (tables (Model_Updates_Idea idea values db).2).
Proof.
  intros [Hb Hi]. unfold Model_Updates_Idea. do 2 (case_decide; [done|]).
  issue_step. rewrite HT. destruct failed; simpl; [by rewrite HT|].
  split; [done|]. simpl. intros k r Hk.
  apply lookup_alter_Some in Hk as [(_ & r0 & Hr0 & ->)|[_ Hk]].
  - simpl. apply assign_keeps_non_empty. by apply (Hi k r0).
  - by apply (Hi k r).
Qed.

Lemma Where_box_id_Delete_titled id db :
  titled (tables db) → titled (tables (Where_box_id_Delete id db).2).
Proof.
  intros [Hb Hi]. unfold Where_box_id_Delete. issue_step. rewrite HT.
  destruct failed; simpl; [by rewrite HT|].
  destruct id as [k|]; simpl; [|by rewrite HT].
  split; [done|]. simpl. intros i r Hir.
  apply map_lookup_filter_Some in Hir as [Hir _]. by apply (Hi i r).
Qed.

Lemma Delete_Box_titled box db :
  titled (tables db) → titled (tables (Delete_Box box db).2).
Proof.
  intros [Hb Hi]. unfold Delete_Box. case_decide; [done|].
  issue_step. rewrite HT. destruct failed; simpl; [by rewrite HT|].
  split; [|done]. simpl. by apply map_Forall_delete.
Qed.

Lemma Delete_Idea_titled idea db :
  titled (tables db) → titled (tables (Delete_Idea idea db).2).
Proof.
  intros [Hb Hi]. unfold Delete_Idea. case_decide; [done|].
  issue_step. rewrite HT. destruct failed; simpl; [by rewrite HT|].
  split; [done|]. simpl. by apply map_Forall_delete.
Qed.

Lemma handle_titled rq db :
  titled (tables db) → titled (tables (handle rq db).2).
Proof.
  intros Ht. destruct rq; simpl.
  - by rewrite getBoxes_tables.
  - by rewrite getBox_tables.
  - unfold createBox.
    destruct (ShouldBindJSON_Box body) as [e|request] eqn:Hbind; [done|].
    destruct (ShouldBindJSON_Box_ok _ _ Hbind) as [Hne _].
    match goal with |- context [Create_Box ?b db] =>
      pose proof (Create_Box_titled b db Hne Ht) as Ht';
      destruct (Create_Box b db) as [[[e|] box] db1] end; done.
  - unfold updateBox.
    destruct (ShouldBindJSON_Box body) as [e|request]; [done|].
    destruct (First_Box id zeroBox db) as [[err box] db1] eqn:H1.
    destruct (First_Box_inv _ _ _ _ _ _ H1) as (HT & _).
    rewrite <- HT in Ht. destruct err as [e|]; [done|].
    match goal with |- context [Model_Updates_Box ?b ?v db1] =>
      pose proof (Model_Updates_Box_titled b v db1 Ht) as Ht';
      destruct (Model_Updates_Box b v db1) as [[[e|] box'] db2] end; done.
  - unfold deleteBox.
    destruct (First_Box id zeroBox db) as [[err box] db1] eqn:H1.
    destruct (First_Box_inv _ _ _ _ _ _ H1) as (HT & _).
    rewrite <- HT in Ht. destruct err as [e|]; [done|].
    pose proof (Where_box_id_Delete_titled id db1 Ht) as Ht1.
    destruct (Where_box_id_Delete id db1) as [e db2].
    pose proof (Delete_Box_titled box db2 Ht1) as Ht2.
    by destruct (Delete_Box box db2) as [[e'|] db3].
  - by rewrite getBoxIdeas_tables.
  - by rewrite getBoxIdea_tables.
  - unfold createBoxIdea.
    destruct (ShouldBindJSON_Idea body) as [e|request] eqn:Hbind; [done|].
    destruct (ShouldBindJSON_Idea_ok _ _ Hbind) as [Hne _].
    destruct (First_Box id zeroBox db) as [[err box] db1] eqn:H1.
    destruct (First_Box_inv _ _ _ _ _ _ H1) as (HT & _).
    rewrite <- HT in Ht. destruct err as [e|]; [done|].
    match goal with |- context [Create_Idea ?i db1] =>
      pose proof (Create_Idea_titled i db1 Hne Ht) as Ht';
      destruct (Create_Idea i db1) as [[[e|] idea] db2] end; done.
  - unfold updateBoxIdea.
    destruct (ShouldBindJSON_Idea body) as [e|request]; [done|].
    destruct (First_Box id zeroBox db) as [[err box] db1] eqn:H1.
    destruct (First_Box_inv _ _ _ _ _ _ H1) as (HT & _).
    rewrite <- HT in Ht. destruct err as [e|]; [done|].
    destruct (Where_id_box_id_First ideaId id zeroIdea db1)
      as [[err idea] db2] eqn:H2.
    destruct (Where_id_box_id_First_inv _ _ _ _ _ _ _ H2) as (HT' & _).
    rewrite <- HT' in Ht. destruct err as [e|]; [done|].
    match goal with |- context [Model_Updates_Idea ?i ?v db2] =>
      pose proof (Model_Updates_Idea_titled i v db2 Ht) as Ht';
      destruct (Model_Updates_Idea i v db2) as [[[e|] idea'] db3] end; done.
  - unfold deleteBoxIdea.
    destruct (First_Box id zeroBox db) as [[err box] db1] eqn:H1.
    destruct (First_Box_inv _ _ _ _ _ _ H1) as (HT & _).
    rewrite <- HT in Ht. destruct err as [e|]; [done|].
    destruct (Where_id_box_id_First ideaId id zeroIdea db1)
      as [[err idea] db2] eqn:H2.
    destruct (Where_id_box_id_First_inv _ _ _ _ _ _ _ H2) as (HT' & _).
    rewrite <- HT' in Ht. destruct err as [e|]; [done|].
    pose proof (Delete_Idea_titled idea db2 Ht) as Ht'.
    by destruct (Delete_Idea idea db2) as [[e|] db3].
Qed.

Lemma serve_titled rqs db :
  titled (tables db) → titled (tables (serve rqs db).2).
Proof.
  revert db. induction rqs as [|rq rqs IH]; intros db Ht; [done|]. simpl.
  pose proof (handle_titled rq db Ht) as H1.
  destruct (handle rq db) as [r db1]. pose proof (IH db1 H1) as H2.
  by destruct (serve rqs db1) as [rs db2].
Qed.

(** X15. Titles are never empty.  Whatever requests are served on a new
    database, and whichever storage calls fail, every stored box and
    every stored idea has a title that is not the empty string: the two
    creates and the two updates validate the title, and an update never
    writes an empty field. *)
Theorem reachable_titled (rqs : list Request) (faults : list bool) :
  titled (tables (serve rqs (mkDB empty_tables faults)).2).
Proof.
  apply serve_titled. split; apply map_Forall_empty.
Qed.

(** * Storage errors after the lookup *)

(** X17. Delete of a box is not atomic in its second half either: when
    the deletion of the ideas succeeds and the deletion of the box then
    fails, the answer is 400 with the storage error, the box is still in
    the store, and its ideas are gone; Get of the box right after shows
    it with an empty Ideas list. *)
Theorem deleteBox_partial_cascade
  (k : Z) (row : boxes_row) (T : Tables) (rest : list bool) :
  boxes T !! k = Some row → k ≠ 0 →
  let db' := (deleteBox (Some k) (mkDB T (false :: false :: true :: rest))).2
  in
  (deleteBox (Some k) (mkDB T (false :: false :: true :: rest))).1
    = JSON StatusBadRequest (H_error (ErrorOf ErrStorage)) ∧
  boxes (tables db') = boxes T ∧
  (∀ i r, ideas (tables db') !! i = Some r ↔
          ideas T !! i = Some r ∧ ideas_box_id r ≠ k) ∧
  (rest = [] →
   getBox (Some k) db'
   = (JSON StatusOK
        (JBox (BoxResponse.mk k (boxes_title row) (boxes_description row)
                              (Some []))), db')).
Proof.
  intros Hk Hnz. simpl.
  rewrite (deleteBox_found_script k row) by done. simpl.
  do 2 (split; [done|]).
  split; [intros i r; by rewrite map_lookup_filter_Some|].
  intros ->. rewrite (getBox_found k row) by done. simpl.
  rewrite ideas_where_box_id_nil; [done|]. simpl.
  intros i r Hi. by apply map_lookup_filter_Some in Hi as [_ Hne].
Qed.

Lemma deleteBox_partial_cascade_witness :
  (deleteBox (Some 1) (mkDB (tables two_boxes) [false; false; true])).1
    = JSON StatusBadRequest (H_error (ErrorOf ErrStorage)) ∧
  boxes (tables
    (deleteBox (Some 1) (mkDB (tables two_boxes) [false; false; true])).2)
    = boxes (tables two_boxes).
Proof.
  destruct (deleteBox_partial_cascade 1 (BoxesRow "A" EmptyString)
              (tables two_boxes) []) as (H1 & H2 & _);
    [reflexivity | lia |].
  split; [exact H1 | exact H2].
Defined.

(** X18. A create whose insert fails creates nothing.  With a title that
    is not empty, Create-Box whose storage call fails, and Create-Idea
    under a box of the store whose insert fails after the lookup of the
    box succeeded, are answered 400 with the storage error and leave the
    tables as they are. *)
Theorem create_storage_error
  (title description : option string) (T : Tables) (rest : list bool) :
  field title ≠ EmptyString →
  createBox (Object title description) (mkDB T (true :: rest))
    = (JSON StatusBadRequest (H_error (ErrorOf ErrStorage)), mkDB T rest) ∧
  (∀ k row, boxes T !! k = Some row →
     createBoxIdea (Some k) (Object title description)
       (mkDB T (false :: true :: rest))
     = (JSON StatusBadRequest (H_error (ErrorOf ErrStorage)), mkDB T rest)).
Proof.
  intros Ht. split.
  - unfold createBox, ShouldBindJSON_Box. simpl. by case_decide.
  - intros k row Hk.
    unfold createBoxIdea, ShouldBindJSON_Idea, First_Box, boxes_where_id,
      Create_Idea, issue.
    simpl. case_decide; [done|]. simpl. by rewrite Hk.
Qed.

Lemma create_storage_error_witness :
  createBox (Object (Some "C") None) (mkDB (tables two_boxes) [true])
    = (JSON StatusBadRequest (H_error (ErrorOf ErrStorage)),
       mkDB (tables two_boxes) []) ∧
  createBoxIdea (Some 1) (Object (Some "C") None)
    (mkDB (tables two_boxes) [false; true])
    = (JSON StatusBadRequest (H_error (ErrorOf ErrStorage)),
       mkDB (tables two_boxes) []).
Proof.
  destruct (create_storage_error (Some "C") None (tables two_boxes) [])
    as [H1 H2]; [discriminate|].
  split; [exact H1|]. apply (H2 1 (BoxesRow "A" EmptyString)). reflexivity.
Defined.

(** * A new box in the list *)

(** X19. A box that was created is in the list of the boxes.  For a
    title that is not empty, when the storage calls succeed, the
    representation that Create-Box answers, with its empty Ideas list, is
    an entry of the list that List-Boxes answers right after. *)
Theorem createBox_then_getBoxes
  (title description : option string) (db : DB) :
  field title ≠ EmptyString →
  healthy db → wf (tables db) → boxes_seq (tables db) < maxRowid →
  let db' := (createBox (Object title description) db).2 in
  ∃ created l,
    (createBox (Object title description) db).1
      = JSON StatusCreated (JBox created) ∧
    BoxResponse.Ideas created = Some [] ∧
    getBoxes db' = (JSON StatusOK (JBoxes (Some l)), db') ∧
    created ∈ l.
Proof.
  intros Ht Hh Hwf Hseq. simpl.
  rewrite createBox_created by done. simpl.
  eexists _, _. split; [done|]. split; [done|].
  split; [by apply getBoxes_healthy|]. simpl.
  set (k := boxes_seq (tables db) + 1).
  set (row := BoxesRow (field title) (field description)).
  set (T' := mkTables _ _ _ _).
  assert (ideas_where_box_id T' k = []) as Hnil.
  { apply ideas_where_box_id_nil. simpl. intros i r Hi.
    destruct Hwf as (_ & _ & Hrefs & _).
    specialize (Hrefs i r Hi). simpl in Hrefs. lia. }
  rewrite <- list_fmap_compose. apply list_elem_of_fmap.
  exists (k, row). split.
  - simpl. rewrite boxResponse_load_box. by rewrite Hnil.
  - apply elem_of_map_to_list. by apply lookup_insert_eq.
Qed.

Lemma createBox_then_getBoxes_witness :
  ∃ created l,
    (createBox (Object (Some "Travel") None) (mkDB empty_tables [])).1
      = JSON StatusCreated (JBox created) ∧
    BoxResponse.Ideas created = Some [] ∧
    getBoxes (createBox (Object (Some "Travel") None)
                (mkDB empty_tables [])).2
      = (JSON StatusOK (JBoxes (Some l)),
         (createBox (Object (Some "Travel") None) (mkDB empty_tables [])).2) ∧
    created ∈ l.
Proof.
  apply (createBox_then_getBoxes (Some "Travel") None (mkDB empty_tables []));
    [discriminate | reflexivity | apply (bool_decide_unpack _); by vm_compute
    | reflexivity].
Defined.
